(** * Unified AI Agent API: the field mappers and the dispatcher of main.py

    A shallow embedding of [src/ass/main.py].  Python dicts are finite maps
    (the order of the keys of a JSON object carries no meaning), optional
    fields are [option], Python's truthiness protocol is a type class, and
    what the handlers do with the network is an explicit list of the
    requests they posted together with the value returned or the exception
    raised. *)

From stdpp Require Import gmap strings list fin_maps.
From Stdlib Require Import ZArith Lia.

Set Warnings "-register-all".
Open Scope Z_scope.

(** ** JSON values, as [json.loads] and pydantic hand them to the program *)

Inductive Json : Type :=
  | JNull
  | JBool (b : bool)
  | JInt (n : Z)
  | JFloat (mantissa exponent : Z)
  | JStr (s : string)
  | JArr (items : list Json)
  | JObj (fields : gmap string Json).

(** ** Truthiness ([if x:], [not x], [x or y]) *)

Class Truthy (A : Type) := truthy : A → bool.

#[global] Instance string_truthy : Truthy string :=
  λ s, match s with EmptyString => false | String _ _ => true end.

(** [bool(d)] of a dict is [len(d) != 0]. *)
#[global] Instance dict_truthy {V} : Truthy (gmap string V) :=
  λ d, negb (Nat.eqb (size d) 0).

(** [None] is falsy; any other value answers for itself. *)
#[global] Instance option_truthy {A} `{Truthy A} : Truthy (option A) :=
  λ o, match o with Some x => truthy x | None => false end.

(** [a or b] where [a] is an [Optional] and [b] a plain default. *)
Definition py_or {A} `{Truthy A} (a : option A) (b : A) : A :=
  match a with
  | Some x => if truthy x then x else b
  | None => b
  end.

(** ** The enumerations (both mix in [str]) *)

Module AgentProvider.
Inductive t := VAPI | RETELL.

Definition value (p : t) : string :=
  match p with VAPI => "vapi" | RETELL => "retell" end.

Definition members : list t := [VAPI; RETELL].

(** [AgentProvider(s)]: the member whose value is [s], if any. *)
Definition of_value (s : string) : option t :=
  find (λ m, bool_decide (value m = s)) members.
End AgentProvider.

Module VoiceProvider.
Inductive t :=
  | ELEVEN_LABS | DEEPGRAM | PLAY_HT | OPEN_AI | RETELL | AWS_POLLY | GOOGLE.

Definition value (p : t) : string :=
  match p with
  | ELEVEN_LABS => "eleven_labs"
  | DEEPGRAM => "deepgram"
  | PLAY_HT => "play_ht"
  | OPEN_AI => "open_ai"
  | RETELL => "retell"
  | AWS_POLLY => "aws_polly"
  | GOOGLE => "google"
  end.

Definition members : list t :=
  [ELEVEN_LABS; DEEPGRAM; PLAY_HT; OPEN_AI; RETELL; AWS_POLLY; GOOGLE].

Definition of_value (s : string) : option t :=
  find (λ m, bool_decide (value m = s)) members.
End VoiceProvider.

(** ** The request models *)

Module Voice.
Record t := mk {
  provider : VoiceProvider.t;
  voice_id : string;
  settings : option (gmap string Json);
}.

Definition with_settings (s : option (gmap string Json)) (v : t) : t :=
  mk (provider v) (voice_id v) s.
End Voice.

(** A pydantic model instance defines neither [__bool__] nor [__len__]:
    it is always truthy. *)
#[global] Instance voice_truthy : Truthy Voice.t := λ _, true.

Module AgentConfig.
Record t := mk {
  name : string;
  description : option string;
  llm_model : option string;
  system_prompt : option string;
  voice : option Voice.t;
  webhook_url : option string;
  metadata : option (gmap string Json);
  provider : AgentProvider.t;
  provider_specific : option (gmap string Json);
}.

Definition with_description (d : option string) (c : t) : t :=
  mk (name c) d (llm_model c) (system_prompt c) (voice c) (webhook_url c)
    (metadata c) (provider c) (provider_specific c).

Definition with_voice (v : option Voice.t) (c : t) : t :=
  mk (name c) (description c) (llm_model c) (system_prompt c) v
    (webhook_url c) (metadata c) (provider c) (provider_specific c).

Definition with_webhook_url (w : option string) (c : t) : t :=
  mk (name c) (description c) (llm_model c) (system_prompt c) (voice c) w
    (metadata c) (provider c) (provider_specific c).

Definition with_provider_specific (ps : option (gmap string Json)) (c : t)
  : t :=
  mk (name c) (description c) (llm_model c) (system_prompt c) (voice c)
    (webhook_url c) (metadata c) (provider c) ps.
End AgentConfig.

(** ** Voice-provider remapping

    A [VoiceProvider] member is a [str]: it hashes and compares as its
    value, so each table is a dict keyed by those strings and [.get]
    answers for any string it is handed. *)

Definition vapi_mapping : gmap string string :=
  list_to_map [
    (VoiceProvider.value VoiceProvider.ELEVEN_LABS, "eleven_labs");
    (VoiceProvider.value VoiceProvider.DEEPGRAM, "deepgram");
    (VoiceProvider.value VoiceProvider.PLAY_HT, "play_ht");
    (VoiceProvider.value VoiceProvider.OPEN_AI, "open_ai");
    (VoiceProvider.value VoiceProvider.AWS_POLLY, "aws_polly");
    (VoiceProvider.value VoiceProvider.GOOGLE, "google");
    (VoiceProvider.value VoiceProvider.RETELL, "retell")
  ].

Definition map_voice_provider_to_vapi (provider : string) : string :=
  default "eleven_labs" (vapi_mapping !! provider).

Definition retell_mapping : gmap string string :=
  list_to_map [
    (VoiceProvider.value VoiceProvider.ELEVEN_LABS, "elevenlabs");
    (VoiceProvider.value VoiceProvider.DEEPGRAM, "deepgram");
    (VoiceProvider.value VoiceProvider.PLAY_HT, "playht");
    (VoiceProvider.value VoiceProvider.OPEN_AI, "openai");
    (VoiceProvider.value VoiceProvider.AWS_POLLY, "polly");
    (VoiceProvider.value VoiceProvider.GOOGLE, "google");
    (VoiceProvider.value VoiceProvider.RETELL, "retell")
  ].

Definition map_voice_provider_to_retell (provider : string) : string :=
  default "elevenlabs" (retell_mapping !! provider).

(** ** The field mappers

    Each statement of the payload construction is one function on the
    payload built so far. *)

(** [if config.webhook_url: payload["webhook_url"] = config.webhook_url] *)
Definition add_webhook (config : AgentConfig.t) (payload : gmap string Json)
  : gmap string Json :=
  match AgentConfig.webhook_url config with
  | Some w => if truthy w then <["webhook_url" := JStr w]> payload else payload
  | None => payload
  end.

(** [if config.description: payload["description"] = config.description] *)
Definition add_description (config : AgentConfig.t) (payload : gmap string Json)
  : gmap string Json :=
  match AgentConfig.description config with
  | Some d => if truthy d then <["description" := JStr d]> payload else payload
  | None => payload
  end.

(** [if config.provider_specific:
       for key, value in config.provider_specific.items():
           payload[key] = value] *)
Definition add_provider_specific (config : AgentConfig.t)
    (payload : gmap string Json) : gmap string Json :=
  match AgentConfig.provider_specific config with
  | Some ps =>
      if truthy ps
      then map_fold (λ key value acc, <[key := value]> acc) payload ps
      else payload
  | None => payload
  end.

(** [if config.voice.settings: payload["voice"]["settings"] = ...] *)
Definition add_voice_settings (v : Voice.t) (voice : gmap string Json)
  : gmap string Json :=
  match Voice.settings v with
  | Some s => if truthy s then <["settings" := JObj s]> voice else voice
  | None => voice
  end.

Definition vapi_base (config : AgentConfig.t) : gmap string Json :=
  list_to_map [
    ("name", JStr (AgentConfig.name config));
    ("model", JStr (py_or (AgentConfig.llm_model config) "gpt-3.5-turbo-0125"));
    ("system_prompt",
     JStr (py_or (AgentConfig.system_prompt config) EmptyString));
    ("metadata", JObj (py_or (AgentConfig.metadata config) ∅))
  ].

Definition add_vapi_voice (config : AgentConfig.t) (payload : gmap string Json)
  : gmap string Json :=
  match AgentConfig.voice config with
  | Some v =>
      if truthy v then
        let payload := <["voice_id" := JStr (Voice.voice_id v)]> payload in
        let voice : gmap string Json :=
          {[ "provider" :=
               JStr (map_voice_provider_to_vapi
                       (VoiceProvider.value (Voice.provider v))) ]} in
        <["voice" := JObj (add_voice_settings v voice)]> payload
      else payload
  | None => payload
  end.

(** The payload of [create_vapi_agent] once the unified fields are mapped,
    before the provider-specific entries are merged in. *)
Definition vapi_mapped (config : AgentConfig.t) : gmap string Json :=
  add_description config
    (add_webhook config (add_vapi_voice config (vapi_base config))).

(** The payload [create_vapi_agent] posts. *)
Definition vapi_payload (config : AgentConfig.t) : gmap string Json :=
  add_provider_specific config (vapi_mapped config).

Definition retell_base (config : AgentConfig.t) : gmap string Json :=
  list_to_map [
    ("name", JStr (AgentConfig.name config));
    ("llm", JObj (list_to_map [
       ("provider", JStr "openai");
       ("model", JStr (py_or (AgentConfig.llm_model config) "gpt-3.5-turbo"))
     ]));
    ("system_prompt",
     JStr (py_or (AgentConfig.system_prompt config) EmptyString));
    ("metadata", JObj (py_or (AgentConfig.metadata config) ∅))
  ].

Definition add_retell_voice (config : AgentConfig.t)
    (payload : gmap string Json) : gmap string Json :=
  match AgentConfig.voice config with
  | Some v =>
      if truthy v then
        let voice : gmap string Json :=
          list_to_map [
            ("provider",
             JStr (map_voice_provider_to_retell
                     (VoiceProvider.value (Voice.provider v))));
            ("voice_id", JStr (Voice.voice_id v))
          ] in
        <["voice" := JObj (add_voice_settings v voice)]> payload
      else payload
  | None => payload
  end.

Definition retell_mapped (config : AgentConfig.t) : gmap string Json :=
  add_description config
    (add_webhook config (add_retell_voice config (retell_base config))).

Definition retell_payload (config : AgentConfig.t) : gmap string Json :=
  add_provider_specific config (retell_mapped config).

(** ** Validation of the request body (the pydantic models)

    A field annotated [Optional[T] = None] accepts a missing key and
    [null]; any other value has to validate as [T].  A field without a
    default is required.  Keys the model does not declare are ignored.
    A [str] field takes a JSON string and a [Dict[str, Any]] field a JSON
    object; nothing below depends on what else pydantic might coerce. *)

Definition as_str (j : Json) : option string :=
  match j with JStr s => Some s | _ => None end.

Definition as_dict (j : Json) : option (gmap string Json) :=
  match j with JObj o => Some o | _ => None end.

Definition required {A} (validate : Json → option A) (field : option Json)
  : option A :=
  field ≫= validate.

Definition optional {A} (validate : Json → option A) (field : option Json)
  : option (option A) :=
  match field with
  | None | Some JNull => Some None
  | Some j => Some <$> validate j
  end.

Definition validate_Voice (j : Json) : option Voice.t :=
  o ← as_dict j;
  provider ← required (λ v, as_str v ≫= VoiceProvider.of_value)
               (o !! "provider");
  voice_id ← required as_str (o !! "voice_id");
  settings ← optional as_dict (o !! "settings");
  Some (Voice.mk provider voice_id settings).

Definition validate_AgentConfig (body : Json) : option AgentConfig.t :=
  o ← as_dict body;
  name ← required as_str (o !! "name");
  description ← optional as_str (o !! "description");
  llm_model ← optional as_str (o !! "llm_model");
  system_prompt ← optional as_str (o !! "system_prompt");
  voice ← optional validate_Voice (o !! "voice");
  webhook_url ← optional as_str (o !! "webhook_url");
  metadata ← optional as_dict (o !! "metadata");
  provider ← required (λ v, as_str v ≫= AgentProvider.of_value)
               (o !! "provider");
  provider_specific ← optional as_dict (o !! "provider_specific");
  Some (AgentConfig.mk name description llm_model system_prompt voice
          webhook_url metadata provider provider_specific).

(** ** The outbound HTTP exchange (httpx) *)

Module Response.
(** What the handlers read of an [httpx.Response]: [.status_code],
    [.text], and [.json()] ([None] when decoding the body raises). *)
Record t := mk {
  status_code : Z;
  text : string;
  json : option Json;
}.

Definition is_success (r : t) : bool :=
  (200 <=? status_code r) && (status_code r <=? 299).
End Response.

Module Request.
(** [client.post(url, headers=headers, json=payload)] *)
Record t := mk {
  url : string;
  headers : gmap string string;
  json : Json;
}.
End Request.

(** What [await client.post(...)] gives: a response, whatever its status,
    or a transport failure ([httpx.RequestError], with its [str(e)]). *)
Inductive Reply :=
  | Received (response : Response.t)
  | Failed (message : string).

Definition AsyncClient := Request.t → Reply.

Inductive Exception :=
  | HTTPStatusError (response : Response.t)  (* httpx.HTTPError, has .response *)
  | RequestError (message : string)          (* httpx.HTTPError, no .response *)
  | JSONDecodeError                          (* not an httpx.HTTPError *)
  | TypeError                                (* not an httpx.HTTPError *)
  | HTTPException (status_code : Z) (detail : string)
  | RequestValidationError.

(** A computation that returns or raises. *)
Definition Raises (A : Type) : Type := Exception + A.

Definition raise {A} (e : Exception) : Raises A := inl e.

Definition bind {A B} (m : Raises A) (k : A → Raises B) : Raises B :=
  match m with inl e => inl e | inr a => k a end.

Notation "'do' x <- m ; k" := (bind m (λ x, k))
  (at level 10, x name, m at level 100, k at level 200).

(** [try: body except httpx.HTTPError as e: handler(e)]; the handler always
    raises, and only the two httpx errors are caught. *)
Definition try_except_HTTPError {A} (body : Raises A)
    (handler : Exception → Exception) : Raises A :=
  match body with
  | inl (HTTPStatusError r) => raise (handler (HTTPStatusError r))
  | inl (RequestError m) => raise (handler (RequestError m))
  | other => other
  end.

Definition post (client : AsyncClient) (request : Request.t)
  : Raises Response.t :=
  match client request with
  | Received response => inr response
  | Failed message => raise (RequestError message)
  end.

(** Raises unless the status is 2xx. *)
Definition raise_for_status (response : Response.t) : Raises unit :=
  if Response.is_success response then inr ()
  else raise (HTTPStatusError response).

Definition response_json (response : Response.t) : Raises Json :=
  match Response.json response with
  | Some j => inr j
  | None => raise JSONDecodeError
  end.

(** [result[key] = value]: only a dict supports item assignment by a
    string key. *)
Definition setitem (result : Json) (key : string) (value : Json)
  : Raises Json :=
  match result with
  | JObj o => inr (JObj (<[key := value]> o))
  | _ => raise TypeError
  end.


(** What a handler did: the requests it posted, and how it ended. *)
Record Handled := {
  posted : list Request.t;
  outcome : Raises Json;
}.

Definition bearer_headers (api_key : string) : gmap string string :=
  list_to_map [
    ("Authorization", "Bearer " +:+ api_key);
    ("Content-Type", "application/json")
  ].

Module ApiKeys.
(** The value of [validate_api_keys]: a dict with exactly these keys. *)
Record t := mk { vapi_key : string; retell_key : string }.
End ApiKeys.

(** [os.getenv] over the process environment. *)
Definition validate_api_keys (env : gmap string string) : Raises ApiKeys.t :=
  let vapi_key := env !! "VAPI_API_KEY" in
  let retell_key := env !! "RETELL_API_KEY" in
  if negb (truthy vapi_key) then
    raise (HTTPException 500 "VAPI_API_KEY not configured in environment")
  else if negb (truthy retell_key) then
    raise (HTTPException 500 "RETELL_API_KEY not configured in environment")
  else inr (ApiKeys.mk (default EmptyString vapi_key)
              (default EmptyString retell_key)).

Section Handlers.

(** [str(v)] for a decoded JSON value that is not itself a string: the
    interpreter's rendering, which this program leaves to Python. *)
Variable py_repr : Json → string.

(** The [{error_detail}] of the f-strings. *)
Definition py_str (v : Json) : string :=
  match v with JStr s => s | _ => py_repr v end.

(** [error_detail = e.response.text
     try:
         error_json = e.response.json()
         error_detail = error_json.get("message", error_detail)
     except:
         pass]
    [.json()] raises on a body that is not JSON and [.get] on a value
    that is not a dict; either way the raw text stays. *)
Definition error_detail (response : Response.t) : string :=
  match Response.json response with
  | Some (JObj error_json) =>
      match error_json !! "message" with
      | Some message => py_str message
      | None => Response.text response
      end
  | _ => Response.text response
  end.

(** The handler of [except httpx.HTTPError as e].  The test
    [hasattr(e, "response") and e.response] holds for the status error
    and for no other: an [httpx.Response] is truthy whatever its status,
    and a transport error carries no response. *)
Definition vapi_except (e : Exception) : Exception :=
  match e with
  | HTTPStatusError response =>
      HTTPException (Response.status_code response)
        ("Vapi API error: " +:+ error_detail response)
  | RequestError message =>
      HTTPException 500 ("Vapi API request failed: " +:+ message)
  | other => other
  end.

Definition vapi_request (config : AgentConfig.t) (api_key : string)
  : Request.t :=
  Request.mk "https://api.vapi.ai/assistants" (bearer_headers api_key)
    (JObj (vapi_payload config)).

Definition create_vapi_agent (config : AgentConfig.t) (api_key : string)
    (client : AsyncClient) : Handled :=
  let request := vapi_request config api_key in
  {| posted := [request];
     outcome :=
       try_except_HTTPError
         (do response <- post client request;
          do _ <- raise_for_status response;
          do result <- response_json response;
          setitem result "provider" (JStr "vapi"))
         vapi_except |}.

Definition retell_except (e : Exception) : Exception :=
  match e with
  | HTTPStatusError response =>
      HTTPException (Response.status_code response)
        ("Retell API error: " +:+ error_detail response)
  | RequestError message =>
      HTTPException 500 ("Retell API request failed: " +:+ message)
  | other => other
  end.

Definition retell_request (config : AgentConfig.t) (api_key : string)
  : Request.t :=
  Request.mk "https://api.retellai.com/agents" (bearer_headers api_key)
    (JObj (retell_payload config)).

Definition create_retell_agent (config : AgentConfig.t) (api_key : string)
    (client : AsyncClient) : Handled :=
  let request := retell_request config api_key in
  {| posted := [request];
     outcome :=
       try_except_HTTPError
         (do response <- post client request;
          do _ <- raise_for_status response;
          do result <- response_json response;
          setitem result "provider" (JStr "retell"))
         retell_except |}.

(** [config.provider == AgentProvider.VAPI] compares two [str] values. *)
Definition create_agent (config : AgentConfig.t) (api_keys : ApiKeys.t)
    (client : AsyncClient) : Handled :=
  let provider := AgentProvider.value (AgentConfig.provider config) in
  if String.eqb provider (AgentProvider.value AgentProvider.VAPI) then
    create_vapi_agent config (ApiKeys.vapi_key api_keys) client
  else if String.eqb provider (AgentProvider.value AgentProvider.RETELL) then
    create_retell_agent config (ApiKeys.retell_key api_keys) client
  else
    {| posted := [];
       outcome := raise (HTTPException 400 "Invalid provider specified") |}.

(** [POST /api/agents] from the decoded body on, as FastAPI runs the
    route: the dependency [validate_api_keys] is solved first and its
    exception ends the request; then the body is validated against
    [AgentConfig]; then the handler runs.  The decoding that comes before
    is in [route_post_api_agents]. *)
Definition post_api_agents (env : gmap string string) (client : AsyncClient)
    (body : Json) : Handled :=
  match validate_api_keys env with
  | inl e => {| posted := []; outcome := raise e |}
  | inr api_keys =>
      match validate_AgentConfig body with
      | None => {| posted := []; outcome := raise RequestValidationError |}
      | Some config => create_agent config api_keys client
      end
  end.


End Handlers.

(** The status line the caller sees: the route's [status_code=201] on a
    return, the exception's own code for an [HTTPException], 422 for a body
    that fails validation, 500 for anything left uncaught. *)
Definition status_of (o : Raises Json) : Z :=
  match o with
  | inr _ => 201
  | inl (HTTPException status_code _) => status_code
  | inl RequestValidationError => 422
  | inl _ => 500
  end.

(** ** Sample requests, keys and provider answers *)

(** The request of the specification's scenarios:
    [{name: "Test Agent", provider: p, voice: {provider: "eleven_labs",
    voice_id: "X"}}]. *)
Definition test_agent (p : AgentProvider.t) : AgentConfig.t :=
  AgentConfig.mk "Test Agent" None None None
    (Some (Voice.mk VoiceProvider.ELEVEN_LABS "X" None)) None None p None.

(** The same request with an empty [llm_model] and [voice.settings: {}]. *)
Definition blank_agent (p : AgentProvider.t) : AgentConfig.t :=
  AgentConfig.mk "Test Agent" None (Some EmptyString) None
    (Some (Voice.mk VoiceProvider.ELEVEN_LABS "X" (Some ∅))) None None p None.

(** The same request with [provider_specific: {"name": "Override"}]. *)
Definition override_agent (p : AgentProvider.t) : AgentConfig.t :=
  AgentConfig.mk "Test Agent" None None None
    (Some (Voice.mk VoiceProvider.ELEVEN_LABS "X" None)) None None p
    (Some {[ "name" := JStr "Override" ]}).

(** The request of the repository's tests, [test_agent_config], every
    optional field filled in. *)
Definition full_agent (p : AgentProvider.t) : AgentConfig.t :=
  AgentConfig.mk "Test Agent" (Some "A test agent") (Some "gpt-4")
    (Some "You are a test agent.")
    (Some (Voice.mk VoiceProvider.ELEVEN_LABS "test-voice-id"
             (Some {[ "stability" := JFloat 1 (-1) ]})))
    (Some "https://example.com/webhook")
    (Some {[ "test" := JStr "value" ]}) p None.

(** A rendering that is right on [null]; no sample below renders a value. *)
Definition none_repr (_ : Json) : string := "None".

(** The keys the repository's tests put in the environment. *)
Definition test_env : gmap string string :=
  list_to_map [("VAPI_API_KEY", "test_vapi_key");
               ("RETELL_API_KEY", "test_retell_key")].

Definition test_keys : ApiKeys.t := ApiKeys.mk "test_vapi_key" "test_retell_key".

(** A provider that answers every request with the same response. *)
Definition answering (response : Response.t) : AsyncClient :=
  λ _, Received response.

(** [s] between double quotes, for the text of a JSON body. *)
Definition quoted (s : string) : string :=
  let quote := Ascii.ascii_of_nat 34 in
  String quote (s +:+ String quote EmptyString).

(** The provider's answer 201 [{"id": "abc"}]. *)
Definition created_abc : Response.t :=
  Response.mk 201 ("{" +:+ quoted "id" +:+ ":" +:+ quoted "abc" +:+ "}")
    (Some (JObj {[ "id" := JStr "abc" ]})).

(** The provider's answer 201 [{"id": "abc", "provider": "acme"}]. *)
Definition created_by_acme : Response.t :=
  Response.mk 201
    ("{" +:+ quoted "id" +:+ ":" +:+ quoted "abc" +:+ ","
         +:+ quoted "provider" +:+ ":" +:+ quoted "acme" +:+ "}")
    (Some (JObj (list_to_map [("id", JStr "abc"); ("provider", JStr "acme")]))).

(** The provider's answer 200 [[]]. *)
Definition empty_listing : Response.t :=
  Response.mk 200 "[]" (Some (JArr [])).

(** The specification's scenario: the provider answers 400 with
    [{"message": "bad voice id"}]. *)
Definition bad_voice_id : Response.t :=
  Response.mk 400
    ("{" +:+ quoted "message" +:+ ":" +:+ quoted "bad voice id" +:+ "}")
    (Some (JObj {[ "message" := JStr "bad voice id" ]})).

(** The provider's answer 404 with a body that is not JSON. *)
Definition not_found : Response.t := Response.mk 404 "Not Found" None.


(** The body of the specification's scenarios, for provider [p]. *)
Definition test_body (p : string) : Json :=
  JObj (list_to_map [
    ("name", JStr "Test Agent");
    ("provider", JStr p);
    ("voice", JObj (list_to_map [("provider", JStr "eleven_labs");
                                 ("voice_id", JStr "X")]))
  ]).

(** ** The bodies the validator has to refuse

    In the words of the specification: [name] or [provider] is missing, or
    [provider] or [voice.provider] is a value outside its enumeration. *)
Inductive outside_schema (o : gmap string Json) : Prop :=
  | name_missing :
      o !! "name" = None → outside_schema o
  | provider_missing :
      o !! "provider" = None → outside_schema o
  | provider_unknown (v : Json) :
      o !! "provider" = Some v →
      (∀ p, v ≠ JStr (AgentProvider.value p)) →
      outside_schema o
  | voice_provider_unknown (voice : gmap string Json) (v : Json) :
      o !! "voice" = Some (JObj voice) →
      voice !! "provider" = Some v →
      (∀ p, v ≠ JStr (VoiceProvider.value p)) →
      outside_schema o.

(** ** Writing a configuration as a request body

    The JSON a client sends for a configuration: every field written out,
    an unset optional field as [null]. *)

Definition optional_json {A} (to_json : A → Json) (field : option A) : Json :=
  from_option to_json JNull field.

Definition Voice_body (v : Voice.t) : Json :=
  JObj (list_to_map [
    ("provider", JStr (VoiceProvider.value (Voice.provider v)));
    ("voice_id", JStr (Voice.voice_id v));
    ("settings", optional_json JObj (Voice.settings v))
  ]).

Definition AgentConfig_body (c : AgentConfig.t) : Json :=
  JObj (list_to_map [
    ("name", JStr (AgentConfig.name c));
    ("description", optional_json JStr (AgentConfig.description c));
    ("llm_model", optional_json JStr (AgentConfig.llm_model c));
    ("system_prompt", optional_json JStr (AgentConfig.system_prompt c));
    ("voice", optional_json Voice_body (AgentConfig.voice c));
    ("webhook_url", optional_json JStr (AgentConfig.webhook_url c));
    ("metadata", optional_json JObj (AgentConfig.metadata c));
    ("provider", JStr (AgentProvider.value (AgentConfig.provider c)));
    ("provider_specific", optional_json JObj (AgentConfig.provider_specific c))
  ]).

(** The fields [AgentConfig] declares, and those of them that are
    [Optional]. *)
Definition AgentConfig_fields : list string :=
  ["name"; "description"; "llm_model"; "system_prompt"; "voice";
   "webhook_url"; "metadata"; "provider"; "provider_specific"].

Definition AgentConfig_optional_fields : list string :=
  ["description"; "llm_model"; "system_prompt"; "voice"; "webhook_url";
   "metadata"; "provider_specific"].

(** ** The client of example_usage.py *)

Module example_usage.
(** The payload of its [create_vapi_agent]. *)
Definition vapi_payload : Json :=
  JObj (list_to_map [
    ("name", JStr "Customer Support Agent");
    ("description", JStr "An AI agent that helps with customer queries");
    ("llm_model", JStr "gpt-4-turbo");
    ("system_prompt",
     JStr ("You are a helpful customer support agent for a tech company. "
           +:+ "Be concise and friendly."));
    ("voice", JObj (list_to_map [
       ("provider", JStr "eleven_labs");
       ("voice_id", JStr "21m00Tcm4TlvDq8ikWAM");
       ("settings", JObj (list_to_map [
          ("stability", JFloat 1 (-1));
          ("similarity_boost", JFloat 3 (-2))
        ]))
     ]));
    ("webhook_url", JStr "https://example.com/webhook/vapi");
    ("metadata", JObj (list_to_map [
       ("department", JStr "customer_support");
       ("priority", JStr "high")
     ]));
    ("provider", JStr "vapi")
  ]).

(** [if response.status_code in [200, 201]]: the answers both of its
    functions print as a success. *)
Definition succeeded (status_code : Z) : bool :=
  bool_decide (status_code ∈ [200; 201]).
End example_usage.

(** ** Proof steps *)

(** Runs through the fields validated before the one that fails. *)
Ltac skip_fields :=
  repeat match goal with
         | |- context [mbind _ ?field] => destruct field; cbn; try done
         end.

(** ** Facts about truthiness and the merge loop *)

Lemma truthy_string_iff (s : string) : truthy s = true ↔ s ≠ EmptyString.
Proof. destruct s; cbn; split; intros; congruence. Qed.

Lemma truthy_dict_iff {V} (d : gmap string V) : truthy d = true ↔ d ≠ ∅.
Proof.
  unfold truthy, dict_truthy. rewrite <- map_size_non_empty_iff.
  destruct (size d) eqn:E; cbn; split; intros; (congruence || lia).
Qed.

Lemma falsy_dict_empty {V} (d : gmap string V) : truthy d = false → d = ∅.
Proof.
  intros H. destruct (decide (size d = 0%nat)) as [E|E].
  - by apply map_size_empty_iff.
  - apply map_size_non_empty_iff, truthy_dict_iff in E. congruence.
Qed.

Lemma py_or_dict_some {V} (d : gmap string V) : py_or (Some d) ∅ = d.
Proof.
  unfold py_or. destruct (truthy d) eqn:E; [done|].
  symmetry. by apply falsy_dict_empty.
Qed.

Lemma py_or_str_some_empty_default (s : string) :
  py_or (Some s) EmptyString = s.
Proof. by destruct s. Qed.

(** The loop over [items()] writes every entry of the dict over the payload:
    the result is the dict, completed by the payload on the other keys. *)
Lemma merge_items_union (ps payload : gmap string Json) :
  map_fold (λ key value acc, <[key := value]> acc) payload ps = ps ∪ payload.
Proof.
  apply (map_fold_weak_ind (λ r m, r = m ∪ payload)).
  - by rewrite (left_id_L ∅ (∪)).
  - intros i x m r _ ->. by rewrite insert_union_l.
Qed.

Lemma add_provider_specific_union config payload :
  add_provider_specific config payload
  = default ∅ (AgentConfig.provider_specific config) ∪ payload.
Proof.
  unfold add_provider_specific.
  destruct (AgentConfig.provider_specific config) as [ps|]; cbn.
  - destruct (truthy ps) eqn:E.
    + apply merge_items_union.
    + apply falsy_dict_empty in E as ->. by rewrite (left_id_L ∅ (∪)).
  - by rewrite (left_id_L ∅ (∪)).
Qed.

Lemma add_provider_specific_written config payload ps key value :
  AgentConfig.provider_specific config = Some ps →
  ps !! key = Some value →
  add_provider_specific config payload !! key = Some value.
Proof.
  intros Hps Hk. rewrite add_provider_specific_union, Hps. cbn.
  by apply lookup_union_Some_l.
Qed.

Lemma add_provider_specific_other config payload key :
  (∀ ps, AgentConfig.provider_specific config = Some ps → ps !! key = None) →
  add_provider_specific config payload !! key = payload !! key.
Proof.
  intros H. rewrite add_provider_specific_union.
  apply lookup_union_r.
  destruct (AgentConfig.provider_specific config) as [ps|]; cbn; [by apply H|].
  apply lookup_empty.
Qed.

Lemma add_webhook_other config payload key :
  key ≠ "webhook_url" → add_webhook config payload !! key = payload !! key.
Proof.
  intros Hk. unfold add_webhook.
  destruct (AgentConfig.webhook_url config) as [w|]; [|done].
  destruct (truthy w); [|done]. by rewrite lookup_insert_ne.
Qed.

Lemma add_description_other config payload key :
  key ≠ "description" → add_description config payload !! key = payload !! key.
Proof.
  intros Hk. unfold add_description.
  destruct (AgentConfig.description config) as [d|]; [|done].
  destruct (truthy d); [|done]. by rewrite lookup_insert_ne.
Qed.

(** Neither optional merge touches a key of the mapped core. *)
Lemma optional_merges_other config payload key :
  key ≠ "webhook_url" → key ≠ "description" →
  add_description config (add_webhook config payload) !! key = payload !! key.
Proof.
  intros. rewrite add_description_other, add_webhook_other; done.
Qed.

Lemma add_voice_settings_provider v (voice : gmap string Json) :
  add_voice_settings v voice !! "provider" = voice !! "provider".
Proof.
  unfold add_voice_settings. destruct (Voice.settings v) as [s|]; [|done].
  destruct (truthy s); [|done]. by rewrite lookup_insert_ne.
Qed.

Lemma add_voice_settings_voice_id v (voice : gmap string Json) :
  add_voice_settings v voice !! "voice_id" = voice !! "voice_id".
Proof.
  unfold add_voice_settings. destruct (Voice.settings v) as [s|]; [|done].
  destruct (truthy s); [|done]. by rewrite lookup_insert_ne.
Qed.

Lemma add_voice_settings_given v (voice : gmap string Json) s :
  Voice.settings v = Some s → s ≠ ∅ →
  add_voice_settings v voice !! "settings" = Some (JObj s).
Proof.
  intros Hs Hne. unfold add_voice_settings. rewrite Hs.
  apply truthy_dict_iff in Hne as ->. apply lookup_insert_eq.
Qed.

Lemma add_voice_settings_omitted v (voice : gmap string Json) :
  Voice.settings v = None ∨ Voice.settings v = Some ∅ →
  add_voice_settings v voice = voice.
Proof. unfold add_voice_settings. by intros [->| ->]. Qed.

(** ** The Vapi mapper *)

(** C3, as the code has it: the mapped Vapi payload carries [name];
    [model] is [llm_model] when that is given and not empty, the default
    "gpt-3.5-turbo-0125" otherwise; [system_prompt] and [metadata] are the
    given values, or the empty string and the empty mapping; with a voice
    block it carries [voice_id] and a [voice] object whose [provider] is the
    Vapi remapping of the voice provider and whose [settings] are the given
    settings when they are not empty, and are left out otherwise; without a
    voice block it carries neither key.  The posted payload agrees with the
    mapped one on every key [provider_specific] does not name. *)
Theorem vapi_mapped_fields (config : AgentConfig.t) :
  let payload := vapi_mapped config in
  payload !! "name" = Some (JStr (AgentConfig.name config))
  ∧ (∀ m, AgentConfig.llm_model config = Some m → m ≠ EmptyString →
       payload !! "model" = Some (JStr m))
  ∧ (AgentConfig.llm_model config = None
     ∨ AgentConfig.llm_model config = Some EmptyString →
       payload !! "model" = Some (JStr "gpt-3.5-turbo-0125"))
  ∧ (∀ s, AgentConfig.system_prompt config = Some s →
       payload !! "system_prompt" = Some (JStr s))
  ∧ (AgentConfig.system_prompt config = None →
       payload !! "system_prompt" = Some (JStr EmptyString))
  ∧ (∀ md, AgentConfig.metadata config = Some md →
       payload !! "metadata" = Some (JObj md))
  ∧ (AgentConfig.metadata config = None →
       payload !! "metadata" = Some (JObj ∅))
  ∧ (∀ v, AgentConfig.voice config = Some v →
       payload !! "voice_id" = Some (JStr (Voice.voice_id v))
       ∧ ∃ voice : gmap string Json,
           payload !! "voice" = Some (JObj voice)
           ∧ voice !! "provider"
             = Some (JStr (map_voice_provider_to_vapi
                             (VoiceProvider.value (Voice.provider v))))
           ∧ (∀ s, Voice.settings v = Some s → s ≠ ∅ →
                voice !! "settings" = Some (JObj s))
           ∧ (Voice.settings v = None ∨ Voice.settings v = Some ∅ →
                voice !! "settings" = None))
  ∧ (AgentConfig.voice config = None →
       payload !! "voice_id" = None ∧ payload !! "voice" = None)
  ∧ (∀ key,
       (∀ ps, AgentConfig.provider_specific config = Some ps →
              ps !! key = None) →
       vapi_payload config !! key = payload !! key).
Proof.
  cbn zeta. unfold vapi_mapped.
  repeat split.
  - rewrite optional_merges_other by done. unfold add_vapi_voice.
    destruct (AgentConfig.voice config); done.
  - intros m Hm Hne. rewrite optional_merges_other by done.
    apply truthy_string_iff in Hne.
    unfold add_vapi_voice, vapi_base, py_or. rewrite Hm, Hne.
    destruct (AgentConfig.voice config); done.
  - intros H. rewrite optional_merges_other by done.
    unfold add_vapi_voice, vapi_base.
    destruct H as [-> | ->]; destruct (AgentConfig.voice config); done.
  - intros s Hs. rewrite optional_merges_other by done.
    unfold add_vapi_voice, vapi_base.
    rewrite Hs, py_or_str_some_empty_default.
    destruct (AgentConfig.voice config); done.
  - intros Hs. rewrite optional_merges_other by done.
    unfold add_vapi_voice, vapi_base. rewrite Hs.
    destruct (AgentConfig.voice config); done.
  - intros md Hmd. rewrite optional_merges_other by done.
    unfold add_vapi_voice, vapi_base. rewrite Hmd, py_or_dict_some.
    destruct (AgentConfig.voice config); done.
  - intros Hmd. rewrite optional_merges_other by done.
    unfold add_vapi_voice, vapi_base. rewrite Hmd.
    destruct (AgentConfig.voice config); done.
  - rewrite optional_merges_other by done.
    unfold add_vapi_voice. rewrite H. cbn.
    by rewrite lookup_insert_ne, lookup_insert_eq.
  - rewrite optional_merges_other by done.
    unfold add_vapi_voice. rewrite H. cbn.
    eexists. split; [apply lookup_insert_eq|].
    split; [|split].
    + by rewrite add_voice_settings_provider, lookup_singleton_eq.
    + intros s Hs Hne. by apply add_voice_settings_given.
    + intros Hs. by rewrite add_voice_settings_omitted.
  - rewrite optional_merges_other by done.
    unfold add_vapi_voice. by rewrite H.
  - rewrite optional_merges_other by done.
    unfold add_vapi_voice. by rewrite H.
  - intros key Hkey. unfold vapi_payload, vapi_mapped.
    by apply add_provider_specific_other.
Qed.

Lemma vapi_mapped_fields_witness :
  let payload := vapi_mapped (full_agent AgentProvider.VAPI) in
  payload !! "model" = Some (JStr "gpt-4")
  ∧ payload !! "system_prompt" = Some (JStr "You are a test agent.")
  ∧ payload !! "metadata" = Some (JObj {[ "test" := JStr "value" ]})
  ∧ payload !! "voice_id" = Some (JStr "test-voice-id")
  ∧ (∃ voice : gmap string Json,
       payload !! "voice" = Some (JObj voice)
       ∧ voice !! "provider" = Some (JStr "eleven_labs")
       ∧ voice !! "settings" = Some (JObj {[ "stability" := JFloat 1 (-1) ]}))
  ∧ vapi_payload (full_agent AgentProvider.VAPI) !! "name"
    = Some (JStr "Test Agent")
  ∧ vapi_mapped (test_agent AgentProvider.VAPI) !! "model"
    = Some (JStr "gpt-3.5-turbo-0125")
  ∧ vapi_mapped (test_agent AgentProvider.VAPI) !! "system_prompt"
    = Some (JStr EmptyString)
  ∧ vapi_mapped (test_agent AgentProvider.VAPI) !! "metadata"
    = Some (JObj ∅).
Proof.
  destruct (vapi_mapped_fields (full_agent AgentProvider.VAPI))
    as (_ & Hmodel & _ & Hprompt & _ & Hmeta & _ & Hvoice & _ & Hfinal).
  destruct (vapi_mapped_fields (test_agent AgentProvider.VAPI))
    as (_ & _ & Hmodel0 & _ & Hprompt0 & _ & Hmeta0 & _).
  cbn zeta in *.
  split; [apply Hmodel; [reflexivity | discriminate]|].
  split; [apply Hprompt; reflexivity|].
  split; [apply Hmeta; reflexivity|].
  destruct (Hvoice _ eq_refl) as (Hid & voice & Hv & Hp & Hs & _).
  split; [exact Hid|].
  split.
  { exists voice. split; [exact Hv|]. split; [exact Hp|].
    apply Hs; [reflexivity|]. apply insert_non_empty. }
  split; [rewrite Hfinal; [reflexivity | intros ps Hps; discriminate Hps]|].
  split; [apply Hmodel0; left; reflexivity|].
  split; [apply Hprompt0; reflexivity | apply Hmeta0; reflexivity].
Defined.

(** C3 as worded fails where a field is given but empty: an empty
    [llm_model] is not kept, the default takes its place, and an empty
    [voice.settings] mapping is not emitted although settings were given. *)
Lemma vapi_blank_fields_not_kept :
  let config := blank_agent AgentProvider.VAPI in
  AgentConfig.llm_model config = Some EmptyString
  ∧ vapi_mapped config !! "model" = Some (JStr "gpt-3.5-turbo-0125")
  ∧ vapi_mapped config !! "model" ≠ Some (JStr EmptyString)
  ∧ (∃ v, AgentConfig.voice config = Some v ∧ Voice.settings v = Some ∅)
  ∧ vapi_mapped config !! "voice"
    = Some (JObj {[ "provider" := JStr "eleven_labs" ]})
  ∧ ¬ (∃ voice : gmap string Json,
         vapi_mapped config !! "voice" = Some (JObj voice)
         ∧ voice !! "settings" = Some (JObj ∅)).
Proof.
  cbn zeta.
  split; [reflexivity|]. split; [reflexivity|]. split; [discriminate|].
  split; [eexists; split; reflexivity|]. split; [reflexivity|].
  intros (voice & Hv & Hs).
  assert (vapi_mapped (blank_agent AgentProvider.VAPI) !! "voice"
          = Some (JObj {[ "provider" := JStr "eleven_labs" ]})) as E
    by reflexivity.
  rewrite E in Hv. injection Hv as <-.
  rewrite lookup_singleton_ne in Hs by done. discriminate.
Qed.

(** ** The Retell mapper *)

(** C4, as the code has it: the mapped Retell payload carries [name]; an
    [llm] object with [provider] "openai" and [model] equal to [llm_model]
    when that is given and not empty, the default "gpt-3.5-turbo"
    otherwise; [system_prompt] and [metadata] as given, or the empty string
    and the empty mapping; with a voice block, a [voice] object with the
    Retell remapping of the voice provider, the [voice_id], and the given
    settings when they are not empty (left out otherwise); without a voice
    block, no [voice] key.  The posted payload agrees with the mapped one on
    every key [provider_specific] does not name. *)
Theorem retell_mapped_fields (config : AgentConfig.t) :
  let payload := retell_mapped config in
  payload !! "name" = Some (JStr (AgentConfig.name config))
  ∧ (∃ llm : gmap string Json,
       payload !! "llm" = Some (JObj llm)
       ∧ llm !! "provider" = Some (JStr "openai")
       ∧ (∀ m, AgentConfig.llm_model config = Some m → m ≠ EmptyString →
            llm !! "model" = Some (JStr m))
       ∧ (AgentConfig.llm_model config = None
          ∨ AgentConfig.llm_model config = Some EmptyString →
            llm !! "model" = Some (JStr "gpt-3.5-turbo")))
  ∧ (∀ s, AgentConfig.system_prompt config = Some s →
       payload !! "system_prompt" = Some (JStr s))
  ∧ (AgentConfig.system_prompt config = None →
       payload !! "system_prompt" = Some (JStr EmptyString))
  ∧ (∀ md, AgentConfig.metadata config = Some md →
       payload !! "metadata" = Some (JObj md))
  ∧ (AgentConfig.metadata config = None →
       payload !! "metadata" = Some (JObj ∅))
  ∧ (∀ v, AgentConfig.voice config = Some v →
       ∃ voice : gmap string Json,
         payload !! "voice" = Some (JObj voice)
         ∧ voice !! "provider"
           = Some (JStr (map_voice_provider_to_retell
                           (VoiceProvider.value (Voice.provider v))))
         ∧ voice !! "voice_id" = Some (JStr (Voice.voice_id v))
         ∧ (∀ s, Voice.settings v = Some s → s ≠ ∅ →
              voice !! "settings" = Some (JObj s))
         ∧ (Voice.settings v = None ∨ Voice.settings v = Some ∅ →
              voice !! "settings" = None))
  ∧ (AgentConfig.voice config = None → payload !! "voice" = None)
  ∧ (∀ key,
       (∀ ps, AgentConfig.provider_specific config = Some ps →
              ps !! key = None) →
       retell_payload config !! key = payload !! key).
Proof.
  cbn zeta. unfold retell_mapped.
  split.
  { rewrite optional_merges_other by done. unfold add_retell_voice.
    destruct (AgentConfig.voice config); done. }
  split.
  { eexists. split.
    - rewrite optional_merges_other by done. unfold add_retell_voice.
      destruct (AgentConfig.voice config); reflexivity.
    - split; [reflexivity|]. split.
      + intros m Hm Hne. apply truthy_string_iff in Hne.
        unfold py_or. by rewrite Hm, Hne.
      + by intros [-> | ->]. }
  split.
  { intros s Hs. rewrite optional_merges_other by done.
    unfold add_retell_voice, retell_base.
    rewrite Hs, py_or_str_some_empty_default.
    destruct (AgentConfig.voice config); done. }
  split.
  { intros Hs. rewrite optional_merges_other by done.
    unfold add_retell_voice, retell_base. rewrite Hs.
    destruct (AgentConfig.voice config); done. }
  split.
  { intros md Hmd. rewrite optional_merges_other by done.
    unfold add_retell_voice, retell_base. rewrite Hmd, py_or_dict_some.
    destruct (AgentConfig.voice config); done. }
  split.
  { intros Hmd. rewrite optional_merges_other by done.
    unfold add_retell_voice, retell_base. rewrite Hmd.
    destruct (AgentConfig.voice config); done. }
  split.
  { intros v Hv. rewrite optional_merges_other by done.
    unfold add_retell_voice. rewrite Hv. cbn.
    eexists. split; [apply lookup_insert_eq|].
    split; [by rewrite add_voice_settings_provider|].
    split; [by rewrite add_voice_settings_voice_id|].
    split.
    - intros s Hs Hne. by apply add_voice_settings_given.
    - intros Hs. by rewrite add_voice_settings_omitted. }
  split.
  { intros Hv. rewrite optional_merges_other by done.
    unfold add_retell_voice. by rewrite Hv. }
  intros key Hkey. unfold retell_payload, retell_mapped.
  by apply add_provider_specific_other.
Qed.

Lemma retell_mapped_fields_witness :
  let payload := retell_mapped (full_agent AgentProvider.RETELL) in
  (∃ llm : gmap string Json,
     payload !! "llm" = Some (JObj llm)
     ∧ llm !! "provider" = Some (JStr "openai")
     ∧ llm !! "model" = Some (JStr "gpt-4"))
  ∧ payload !! "system_prompt" = Some (JStr "You are a test agent.")
  ∧ payload !! "metadata" = Some (JObj {[ "test" := JStr "value" ]})
  ∧ (∃ voice : gmap string Json,
       payload !! "voice" = Some (JObj voice)
       ∧ voice !! "provider" = Some (JStr "elevenlabs")
       ∧ voice !! "voice_id" = Some (JStr "test-voice-id")
       ∧ voice !! "settings" = Some (JObj {[ "stability" := JFloat 1 (-1) ]}))
  ∧ retell_payload (full_agent AgentProvider.RETELL) !! "name"
    = Some (JStr "Test Agent")
  ∧ (∃ llm : gmap string Json,
       retell_mapped (test_agent AgentProvider.RETELL) !! "llm"
       = Some (JObj llm)
       ∧ llm !! "model" = Some (JStr "gpt-3.5-turbo"))
  ∧ retell_mapped (test_agent AgentProvider.RETELL) !! "system_prompt"
    = Some (JStr EmptyString)
  ∧ retell_mapped (test_agent AgentProvider.RETELL) !! "metadata"
    = Some (JObj ∅).
Proof.
  destruct (retell_mapped_fields (full_agent AgentProvider.RETELL))
    as (_ & (llm & Hllm & Hlp & Hmodel & _) & Hprompt & _ & Hmeta & _
        & Hvoice & _ & Hfinal).
  destruct (retell_mapped_fields (test_agent AgentProvider.RETELL))
    as (_ & (llm0 & Hllm0 & _ & _ & Hmodel0) & _ & Hprompt0 & _ & Hmeta0 & _).
  cbn zeta in *.
  split.
  { exists llm. split; [exact Hllm|]. split; [exact Hlp|].
    apply Hmodel; [reflexivity | discriminate]. }
  split; [apply Hprompt; reflexivity|].
  split; [apply Hmeta; reflexivity|].
  destruct (Hvoice _ eq_refl) as (voice & Hv & Hp & Hid & Hs & _).
  split.
  { exists voice. split; [exact Hv|]. split; [exact Hp|]. split; [exact Hid|].
    apply Hs; [reflexivity|]. apply insert_non_empty. }
  split; [rewrite Hfinal; [reflexivity | intros ps Hps; discriminate Hps]|].
  split.
  { exists llm0. split; [exact Hllm0|]. apply Hmodel0. left; reflexivity. }
  split; [apply Hprompt0; reflexivity | apply Hmeta0; reflexivity].
Defined.

(** C4 as worded fails where a field is given but empty: an empty
    [llm_model] gives way to the default inside [llm], and an empty
    [voice.settings] mapping is not emitted although settings were given. *)
Lemma retell_blank_fields_not_kept :
  let config := blank_agent AgentProvider.RETELL in
  AgentConfig.llm_model config = Some EmptyString
  ∧ retell_mapped config !! "llm"
    = Some (JObj (list_to_map [("provider", JStr "openai");
                               ("model", JStr "gpt-3.5-turbo")]))
  ∧ ¬ (∃ llm : gmap string Json,
         retell_mapped config !! "llm" = Some (JObj llm)
         ∧ llm !! "model" = Some (JStr EmptyString))
  ∧ (∃ v, AgentConfig.voice config = Some v ∧ Voice.settings v = Some ∅)
  ∧ retell_mapped config !! "voice"
    = Some (JObj (list_to_map [("provider", JStr "elevenlabs");
                               ("voice_id", JStr "X")]))
  ∧ ¬ (∃ voice : gmap string Json,
         retell_mapped config !! "voice" = Some (JObj voice)
         ∧ voice !! "settings" = Some (JObj ∅)).
Proof.
  cbn zeta.
  assert (retell_mapped (blank_agent AgentProvider.RETELL) !! "llm"
          = Some (JObj (list_to_map [("provider", JStr "openai");
                                     ("model", JStr "gpt-3.5-turbo")]))) as El
    by reflexivity.
  assert (retell_mapped (blank_agent AgentProvider.RETELL) !! "voice"
          = Some (JObj (list_to_map [("provider", JStr "elevenlabs");
                                     ("voice_id", JStr "X")]))) as Ev
    by reflexivity.
  split; [reflexivity|]. split; [exact El|]. split.
  { intros (llm & Hl & Hm). rewrite El in Hl. injection Hl as <-.
    discriminate Hm. }
  split; [eexists; split; reflexivity|]. split; [exact Ev|].
  intros (voice & Hv & Hs). rewrite Ev in Hv. injection Hv as <-.
  discriminate Hs.
Qed.

(** ** The provider-specific escape hatch *)

(** C5: every entry of [provider_specific] is in the payload that is
    posted, with the value given there, for either provider and whatever
    the mapper had put under that key. *)
Theorem provider_specific_last_write_wins (py_repr : Json → string)
    (config : AgentConfig.t) (api_keys : ApiKeys.t) (client : AsyncClient)
    (ps : gmap string Json) (key : string) (value : Json) :
  AgentConfig.provider_specific config = Some ps →
  ps !! key = Some value →
  vapi_payload config !! key = Some value
  ∧ retell_payload config !! key = Some value
  ∧ ∃ request payload,
      posted (create_agent py_repr config api_keys client) = [request]
      ∧ Request.json request = JObj payload
      ∧ payload !! key = Some value.
Proof.
  intros Hps Hkey.
  assert (vapi_payload config !! key = Some value) as Hv
    by (by eapply add_provider_specific_written).
  assert (retell_payload config !! key = Some value) as Hr
    by (by eapply add_provider_specific_written).
  split; [exact Hv|]. split; [exact Hr|].
  unfold create_agent.
  destruct (AgentConfig.provider config); cbn.
  - exists (vapi_request config (ApiKeys.vapi_key api_keys)), (vapi_payload config).
    done.
  - exists (retell_request config (ApiKeys.retell_key api_keys)),
      (retell_payload config).
    done.
Qed.

Lemma provider_specific_last_write_wins_witness :
  vapi_mapped (override_agent AgentProvider.VAPI) !! "name"
  = Some (JStr "Test Agent")
  ∧ vapi_payload (override_agent AgentProvider.VAPI) !! "name"
    = Some (JStr "Override")
  ∧ retell_payload (override_agent AgentProvider.VAPI) !! "name"
    = Some (JStr "Override")
  ∧ ∃ request payload,
      posted (create_agent none_repr (override_agent AgentProvider.VAPI)
                test_keys (answering created_abc))
      = [request]
      ∧ Request.json request = JObj payload
      ∧ payload !! "name" = Some (JStr "Override").
Proof.
  split; [reflexivity|].
  apply (provider_specific_last_write_wins none_repr
           (override_agent AgentProvider.VAPI) test_keys
           (answering created_abc)
           {[ "name" := JStr "Override" ]} "name" (JStr "Override"));
    reflexivity.
Defined.

(** ** The remapping tables *)

(** C6: each table has an entry for every member of [VoiceProvider], and
    the function returns that entry; on any key without an entry the Vapi
    function returns "eleven_labs" and the Retell function "elevenlabs". *)
Theorem voice_provider_tables_total :
  (∀ p : VoiceProvider.t,
     vapi_mapping !! VoiceProvider.value p
     = Some (map_voice_provider_to_vapi (VoiceProvider.value p))
     ∧ map_voice_provider_to_vapi (VoiceProvider.value p)
       = match p with
         | VoiceProvider.ELEVEN_LABS => "eleven_labs"
         | VoiceProvider.DEEPGRAM => "deepgram"
         | VoiceProvider.PLAY_HT => "play_ht"
         | VoiceProvider.OPEN_AI => "open_ai"
         | VoiceProvider.RETELL => "retell"
         | VoiceProvider.AWS_POLLY => "aws_polly"
         | VoiceProvider.GOOGLE => "google"
         end)
  ∧ (∀ p : VoiceProvider.t,
       retell_mapping !! VoiceProvider.value p
       = Some (map_voice_provider_to_retell (VoiceProvider.value p))
       ∧ map_voice_provider_to_retell (VoiceProvider.value p)
         = match p with
           | VoiceProvider.ELEVEN_LABS => "elevenlabs"
           | VoiceProvider.DEEPGRAM => "deepgram"
           | VoiceProvider.PLAY_HT => "playht"
           | VoiceProvider.OPEN_AI => "openai"
           | VoiceProvider.RETELL => "retell"
           | VoiceProvider.AWS_POLLY => "polly"
           | VoiceProvider.GOOGLE => "google"
           end)
  ∧ (∀ key : string,
       vapi_mapping !! key = None →
       map_voice_provider_to_vapi key = "eleven_labs")
  ∧ (∀ key : string,
       retell_mapping !! key = None →
       map_voice_provider_to_retell key = "elevenlabs").
Proof.
  split; [intros []; split; reflexivity|].
  split; [intros []; split; reflexivity|].
  split; intros key Hkey.
  - unfold map_voice_provider_to_vapi. by rewrite Hkey.
  - unfold map_voice_provider_to_retell. by rewrite Hkey.
Qed.

Lemma voice_provider_tables_total_witness :
  vapi_mapping !! "azure" = None
  ∧ map_voice_provider_to_vapi "azure" = "eleven_labs"
  ∧ retell_mapping !! "azure" = None
  ∧ map_voice_provider_to_retell "azure" = "elevenlabs".
Proof.
  destruct voice_provider_tables_total as (_ & _ & Hvapi & Hretell).
  split; [reflexivity|]. split; [apply Hvapi; reflexivity|].
  split; [reflexivity | apply Hretell; reflexivity].
Defined.

(** ** Optional fields are gated on truthiness *)

(** C10: for both providers, an empty [description], an empty
    [webhook_url], an empty [voice.settings] mapping and an empty
    [provider_specific] mapping give the payload that the absent field
    gives; the mapped payload then has no [description] or [webhook_url]
    key, and the [voice] object no [settings] key. *)
Theorem falsy_optionals_as_absent (config : AgentConfig.t) (v : Voice.t) :
  let blank_description :=
    AgentConfig.with_description (Some EmptyString) config in
  let no_description := AgentConfig.with_description None config in
  let blank_webhook :=
    AgentConfig.with_webhook_url (Some EmptyString) config in
  let no_webhook := AgentConfig.with_webhook_url None config in
  let empty_specific := AgentConfig.with_provider_specific (Some ∅) config in
  let no_specific := AgentConfig.with_provider_specific None config in
  let empty_settings :=
    AgentConfig.with_voice (Some (Voice.with_settings (Some ∅) v)) config in
  let no_settings :=
    AgentConfig.with_voice (Some (Voice.with_settings None v)) config in
  (vapi_payload blank_description = vapi_payload no_description
   ∧ retell_payload blank_description = retell_payload no_description
   ∧ vapi_mapped blank_description !! "description" = None
   ∧ retell_mapped blank_description !! "description" = None)
  ∧ (vapi_payload blank_webhook = vapi_payload no_webhook
     ∧ retell_payload blank_webhook = retell_payload no_webhook
     ∧ vapi_mapped blank_webhook !! "webhook_url" = None
     ∧ retell_mapped blank_webhook !! "webhook_url" = None)
  ∧ (vapi_payload empty_specific = vapi_payload no_specific
     ∧ retell_payload empty_specific = retell_payload no_specific
     ∧ vapi_payload empty_specific = vapi_mapped config
     ∧ retell_payload empty_specific = retell_mapped config)
  ∧ (vapi_payload empty_settings = vapi_payload no_settings
     ∧ retell_payload empty_settings = retell_payload no_settings
     ∧ (∃ voice : gmap string Json,
          vapi_mapped empty_settings !! "voice" = Some (JObj voice)
          ∧ voice !! "settings" = None)
     ∧ (∃ voice : gmap string Json,
          retell_mapped empty_settings !! "voice" = Some (JObj voice)
          ∧ voice !! "settings" = None)).
Proof.
  destruct config as [n d m sp vo w md p ps], v as [vp vid vs]. cbn zeta.
  split; [|split; [|split]].
  - split; [reflexivity|]. split; [reflexivity|].
    split.
    + unfold vapi_mapped, add_description, add_webhook, add_vapi_voice. cbn.
      destruct w as [w|]; [destruct (truthy w)|];
        (destruct vo; cbn; done).
    + unfold retell_mapped, add_description, add_webhook, add_retell_voice.
      cbn. destruct w as [w|]; [destruct (truthy w)|];
        (destruct vo; cbn; done).
  - split; [reflexivity|]. split; [reflexivity|].
    split.
    + unfold vapi_mapped. rewrite add_description_other by done.
      unfold add_webhook, add_vapi_voice. cbn. destruct vo; done.
    + unfold retell_mapped. rewrite add_description_other by done.
      unfold add_webhook, add_retell_voice. cbn. destruct vo; done.
  - repeat split; reflexivity.
  - split; [reflexivity|]. split; [reflexivity|].
    split.
    + eexists. split.
      * unfold vapi_mapped. rewrite optional_merges_other by done.
        unfold add_vapi_voice. cbn. apply lookup_insert_eq.
      * done.
    + eexists. split.
      * unfold retell_mapped. rewrite optional_merges_other by done.
        unfold add_retell_voice. cbn. apply lookup_insert_eq.
      * done.
Qed.

(** ** The dispatcher *)

(** How [create_vapi_agent] ends, by what the provider answered. *)
Lemma create_vapi_agent_outcome py_repr config api_key client :
  outcome (create_vapi_agent py_repr config api_key client)
  = match client (vapi_request config api_key) with
    | Failed message =>
        raise (HTTPException 500 ("Vapi API request failed: " +:+ message))
    | Received response =>
        if Response.is_success response then
          match Response.json response with
          | None => raise JSONDecodeError
          | Some (JObj o) => inr (JObj (<["provider" := JStr "vapi"]> o))
          | Some _ => raise TypeError
          end
        else
          raise (HTTPException (Response.status_code response)
                   ("Vapi API error: " +:+ error_detail py_repr response))
    end.
Proof.
  unfold create_vapi_agent, post, raise_for_status, response_json. cbn.
  destruct (client _) as [response|message]; [|reflexivity]. cbn.
  destruct (Response.is_success response); [|reflexivity]. cbn.
  destruct (Response.json response) as [[]|]; reflexivity.
Qed.

Lemma create_retell_agent_outcome py_repr config api_key client :
  outcome (create_retell_agent py_repr config api_key client)
  = match client (retell_request config api_key) with
    | Failed message =>
        raise (HTTPException 500 ("Retell API request failed: " +:+ message))
    | Received response =>
        if Response.is_success response then
          match Response.json response with
          | None => raise JSONDecodeError
          | Some (JObj o) => inr (JObj (<["provider" := JStr "retell"]> o))
          | Some _ => raise TypeError
          end
        else
          raise (HTTPException (Response.status_code response)
                   ("Retell API error: " +:+ error_detail py_repr response))
    end.
Proof.
  unfold create_retell_agent, post, raise_for_status, response_json. cbn.
  destruct (client _) as [response|message]; [|reflexivity]. cbn.
  destruct (Response.is_success response); [|reflexivity]. cbn.
  destruct (Response.json response) as [[]|]; reflexivity.
Qed.

(** The comparisons of [create_agent] settle on the member itself. *)
Lemma create_agent_by_provider py_repr config api_keys client :
  create_agent py_repr config api_keys client
  = match AgentConfig.provider config with
    | AgentProvider.VAPI =>
        create_vapi_agent py_repr config (ApiKeys.vapi_key api_keys) client
    | AgentProvider.RETELL =>
        create_retell_agent py_repr config (ApiKeys.retell_key api_keys) client
    end.
Proof. unfold create_agent. by destruct (AgentConfig.provider config). Qed.

(** C9: a validated [provider] is one of the two members, [create_agent]
    hands the request to the handler of that member, which posts exactly one
    request to that provider's URL with that provider's key, and the request
    never ends in the 400 "Invalid provider specified" of the last branch. *)
Theorem create_agent_dispatches (py_repr : Json → string)
    (config : AgentConfig.t) (api_keys : ApiKeys.t) (client : AsyncClient) :
  let handled := create_agent py_repr config api_keys client in
  (AgentConfig.provider config = AgentProvider.VAPI
   ∨ AgentConfig.provider config = AgentProvider.RETELL)
  ∧ handled
    = match AgentConfig.provider config with
      | AgentProvider.VAPI =>
          create_vapi_agent py_repr config (ApiKeys.vapi_key api_keys) client
      | AgentProvider.RETELL =>
          create_retell_agent py_repr config (ApiKeys.retell_key api_keys)
            client
      end
  ∧ outcome handled ≠ raise (HTTPException 400 "Invalid provider specified")
  ∧ ∃ request,
      posted handled = [request]
      ∧ Request.url request
        = match AgentConfig.provider config with
          | AgentProvider.VAPI => "https://api.vapi.ai/assistants"
          | AgentProvider.RETELL => "https://api.retellai.com/agents"
          end
      ∧ Request.headers request !! "Authorization"
        = Some ("Bearer " +:+
                match AgentConfig.provider config with
                | AgentProvider.VAPI => ApiKeys.vapi_key api_keys
                | AgentProvider.RETELL => ApiKeys.retell_key api_keys
                end).
Proof.
  cbn zeta. rewrite create_agent_by_provider.
  split; [destruct (AgentConfig.provider config); auto|].
  split; [reflexivity|].
  destruct (AgentConfig.provider config).
  - split.
    + rewrite create_vapi_agent_outcome.
      destruct (client _) as [response|message]; [|discriminate].
      destruct (Response.is_success response); [|discriminate].
      destruct (Response.json response) as [[]|]; discriminate.
    + eexists. split; [reflexivity|]. split; reflexivity.
  - split.
    + rewrite create_retell_agent_outcome.
      destruct (client _) as [response|message]; [|discriminate].
      destruct (Response.is_success response); [|discriminate].
      destruct (Response.json response) as [[]|]; discriminate.
    + eexists. split; [reflexivity|]. split; reflexivity.
Qed.

(** *** Success *)

(** C1, as the code has it: when the provider answers 2xx with a JSON
    object, the caller gets 201 and that object with [provider] set to the
    request's provider value; every other field is the provider's,
    unchanged, and nothing else is added. *)
Theorem success_tags_provider (py_repr : Json → string)
    (config : AgentConfig.t) (api_keys : ApiKeys.t) (client : AsyncClient)
    (request : Request.t) (response : Response.t)
    (downstream : gmap string Json) :
  let handled := create_agent py_repr config api_keys client in
  posted handled = [request] →
  client request = Received response →
  Response.is_success response = true →
  Response.json response = Some (JObj downstream) →
  ∃ result : gmap string Json,
    outcome handled = inr (JObj result)
    ∧ status_of (outcome handled) = 201
    ∧ result
      = <["provider" :=
            JStr (AgentProvider.value (AgentConfig.provider config))]>
          downstream
    ∧ result !! "provider"
      = Some (JStr (AgentProvider.value (AgentConfig.provider config)))
    ∧ (∀ key, key ≠ "provider" → result !! key = downstream !! key).
Proof.
  cbn zeta. rewrite create_agent_by_provider.
  intros Hposted Hreply Hok Hjson.
  assert (∀ tag : string, ∀ key : string, key ≠ "provider" →
            (<["provider" := JStr tag]> downstream : gmap string Json) !! key
            = downstream !! key) as Hother
    by (intros; by rewrite lookup_insert_ne).
  destruct (AgentConfig.provider config); cbn in Hposted;
    injection Hposted as <-.
  - rewrite create_vapi_agent_outcome, Hreply, Hok, Hjson. eexists.
    split; [reflexivity|]. split; [reflexivity|]. split; [reflexivity|].
    split; [apply lookup_insert_eq | apply Hother].
  - rewrite create_retell_agent_outcome, Hreply, Hok, Hjson. eexists.
    split; [reflexivity|]. split; [reflexivity|]. split; [reflexivity|].
    split; [apply lookup_insert_eq | apply Hother].
Qed.

(** The specification's scenario: the provider answers 201 [{"id": "abc"}],
    the caller gets 201 [{"id": "abc", "provider": "vapi"}]. *)
Lemma success_tags_provider_witness :
  let handled :=
    create_agent none_repr (test_agent AgentProvider.VAPI) test_keys
      (answering created_abc) in
  ∃ result : gmap string Json,
    outcome handled = inr (JObj result)
    ∧ status_of (outcome handled) = 201
    ∧ result = <["provider" := JStr "vapi"]> {[ "id" := JStr "abc" ]}
    ∧ result !! "provider" = Some (JStr "vapi")
    ∧ (∀ key, key ≠ "provider" →
         result !! key = ({[ "id" := JStr "abc" ]} : gmap string Json) !! key).
Proof.
  apply (success_tags_provider none_repr (test_agent AgentProvider.VAPI)
           test_keys (answering created_abc)
           (vapi_request (test_agent AgentProvider.VAPI) "test_vapi_key")
           created_abc
           {[ "id" := JStr "abc" ]});
    reflexivity.
Defined.

(** C1 as worded fails on two successful answers.  A provider object that
    has a [provider] field of its own does not keep it: the tag is written
    over it.  And a 2xx body that is JSON but not an object (here [[]]) is
    not returned at all: tagging it raises, and the caller gets a 500. *)
Lemma success_overwrites_downstream_provider :
  let downstream : gmap string Json :=
    list_to_map [("id", JStr "abc"); ("provider", JStr "acme")] in
  let handled :=
    create_agent none_repr (test_agent AgentProvider.VAPI) test_keys
      (answering created_by_acme) in
  let listed :=
    create_agent none_repr (test_agent AgentProvider.VAPI) test_keys
      (answering empty_listing) in
  Response.is_success created_by_acme = true
  ∧ Response.json created_by_acme = Some (JObj downstream)
  ∧ downstream !! "provider" = Some (JStr "acme")
  ∧ outcome handled
    = inr (JObj (list_to_map [("id", JStr "abc"); ("provider", JStr "vapi")]))
  ∧ ¬ (∃ result : gmap string Json,
         outcome handled = inr (JObj result)
         ∧ ∀ key value, downstream !! key = Some value →
                        result !! key = Some value)
  ∧ Response.is_success empty_listing = true
  ∧ outcome listed = raise TypeError
  ∧ status_of (outcome listed) = 500.
Proof.
  cbn zeta.
  split; [reflexivity|]. split; [reflexivity|].
  split; [reflexivity|]. split; [reflexivity|]. split.
  - intros (result & Hout & Hkeep).
    assert (result !! "provider" = Some (JStr "acme")) as Hp
      by (apply Hkeep; reflexivity).
    assert (result !! "provider" = Some (JStr "vapi")) as Hp'.
    { assert (outcome
                (create_agent none_repr (test_agent AgentProvider.VAPI)
                   test_keys (answering created_by_acme))
              = inr (JObj (list_to_map [("id", JStr "abc");
                                        ("provider", JStr "vapi")]))) as E
        by reflexivity.
      rewrite E in Hout. injection Hout as <-. reflexivity. }
    rewrite Hp in Hp'. discriminate Hp'.
  - repeat split; reflexivity.
Qed.

(** *** Provider errors *)

(** What the handlers do with a provider error: when the provider answers
    with a status that is not 2xx, the caller gets that same status, and
    the detail is "Vapi API error: " or "Retell API error: " followed by
    what was read from the answer: the [message] of a JSON object body
    (itself, when it is a string), and the raw text of the answer when the
    body is not JSON, is not an object, or has no [message]. *)
Theorem provider_error_keeps_status (py_repr : Json → string)
    (config : AgentConfig.t) (api_keys : ApiKeys.t) (client : AsyncClient)
    (request : Request.t) (response : Response.t) :
  let handled := create_agent py_repr config api_keys client in
  posted handled = [request] →
  client request = Received response →
  Response.is_success response = false →
  outcome handled
  = raise (HTTPException (Response.status_code response)
             (match AgentConfig.provider config with
              | AgentProvider.VAPI => "Vapi API error: "
              | AgentProvider.RETELL => "Retell API error: "
              end +:+ error_detail py_repr response))
  ∧ status_of (outcome handled) = Response.status_code response
  ∧ (∀ (o : gmap string Json) (message : string),
       Response.json response = Some (JObj o) →
       o !! "message" = Some (JStr message) →
       error_detail py_repr response = message)
  ∧ (∀ (o : gmap string Json) (message : Json),
       Response.json response = Some (JObj o) →
       o !! "message" = Some message →
       error_detail py_repr response = py_str py_repr message)
  ∧ (Response.json response = None →
       error_detail py_repr response = Response.text response)
  ∧ (∀ o : gmap string Json,
       Response.json response = Some (JObj o) → o !! "message" = None →
       error_detail py_repr response = Response.text response)
  ∧ (∀ j, Response.json response = Some j → (∀ o, j ≠ JObj o) →
       error_detail py_repr response = Response.text response).
Proof.
  cbn zeta. rewrite create_agent_by_provider.
  intros Hposted Hreply Hok.
  split; [|split].
  - destruct (AgentConfig.provider config); cbn in Hposted;
      injection Hposted as <-.
    + by rewrite create_vapi_agent_outcome, Hreply, Hok.
    + by rewrite create_retell_agent_outcome, Hreply, Hok.
  - destruct (AgentConfig.provider config); cbn in Hposted;
      injection Hposted as <-.
    + by rewrite create_vapi_agent_outcome, Hreply, Hok.
    + by rewrite create_retell_agent_outcome, Hreply, Hok.
  - unfold error_detail. repeat split.
    + intros o message -> ->. reflexivity.
    + intros o message -> ->. reflexivity.
    + intros ->. reflexivity.
    + intros o -> ->. reflexivity.
    + intros j -> Hj. destruct j; try reflexivity. by destruct (Hj fields).
Qed.


(** In the specification's scenario the caller gets the provider's 400. *)
Lemma provider_error_keeps_status_witness :
  let handled :=
    create_agent none_repr (test_agent AgentProvider.VAPI) test_keys
      (answering bad_voice_id) in
  outcome handled = raise (HTTPException 400 "Vapi API error: bad voice id")
  ∧ status_of (outcome handled) = 400
  ∧ error_detail none_repr bad_voice_id = "bad voice id".
Proof.
  destruct (provider_error_keeps_status none_repr
              (test_agent AgentProvider.VAPI) test_keys
              (answering bad_voice_id)
              (vapi_request (test_agent AgentProvider.VAPI) "test_vapi_key")
              bad_voice_id eq_refl eq_refl eq_refl)
    as (Hout & Hstatus & Hmessage & _).
  split; [exact Hout|]. split; [exact Hstatus|].
  apply (Hmessage {[ "message" := JStr "bad voice id" ]}); reflexivity.
Defined.

(** C2: the code at the input of the specification's scenario and of the
    repository's test [test_provider_api_error], a provider that answers
    400 with a message.  The detail carries the message, as the claim says;
    the status does not become the one server-error status the claim and
    the test ask for: the provider's own status reaches the caller.  A 400
    comes back as 400 and a 404 as 404, neither a server-error status, and
    not one status for both. *)
Lemma provider_error_not_collapsed :
  let refused :=
    create_agent none_repr (test_agent AgentProvider.VAPI) test_keys
      (answering bad_voice_id) in
  let missing :=
    create_agent none_repr (test_agent AgentProvider.RETELL) test_keys
      (answering not_found) in
  Response.is_success bad_voice_id = false
  ∧ outcome refused = raise (HTTPException 400 "Vapi API error: bad voice id")
  ∧ status_of (outcome refused) = 400
  ∧ ¬ (500 ≤ status_of (outcome refused) ≤ 599)
  ∧ Response.is_success not_found = false
  ∧ outcome missing = raise (HTTPException 404 "Retell API error: Not Found")
  ∧ status_of (outcome missing) = 404
  ∧ status_of (outcome refused) ≠ status_of (outcome missing).
Proof.
  cbn zeta.
  assert (status_of
            (outcome (create_agent none_repr (test_agent AgentProvider.VAPI)
                        test_keys (answering bad_voice_id))) = 400) as E
    by reflexivity.
  assert (status_of
            (outcome (create_agent none_repr (test_agent AgentProvider.RETELL)
                        test_keys (answering not_found))) = 404) as E'
    by reflexivity.
  rewrite E, E'.
  split; [reflexivity|]. split; [reflexivity|]. split; [reflexivity|].
  split; [lia|]. split; [reflexivity|]. split; [reflexivity|].
  split; [reflexivity | lia].
Qed.

(** *** Credentials *)





(** The keys of the repository's own test, present but empty, count as
    not configured too. *)
Lemma empty_keys_not_configured :
  validate_api_keys
    (list_to_map [("VAPI_API_KEY", EmptyString);
                  ("RETELL_API_KEY", EmptyString)])
  = raise (HTTPException 500 "VAPI_API_KEY not configured in environment").
Proof. reflexivity. Qed.

(** *** Validation of the body *)

Lemma AgentProvider_of_value_Some (s : string) (p : AgentProvider.t) :
  AgentProvider.of_value s = Some p → s = AgentProvider.value p.
Proof.
  unfold AgentProvider.of_value. cbn.
  repeat case_bool_decide; intros [= <-]; done.
Qed.

Lemma VoiceProvider_of_value_Some (s : string) (p : VoiceProvider.t) :
  VoiceProvider.of_value s = Some p → s = VoiceProvider.value p.
Proof.
  unfold VoiceProvider.of_value. cbn.
  repeat case_bool_decide; intros [= <-]; done.
Qed.

Lemma AgentProvider_of_value_value (p : AgentProvider.t) :
  AgentProvider.of_value (AgentProvider.value p) = Some p.
Proof. by destruct p. Qed.

Lemma VoiceProvider_of_value_value (p : VoiceProvider.t) :
  VoiceProvider.of_value (VoiceProvider.value p) = Some p.
Proof. by destruct p. Qed.

Lemma unknown_agent_provider (v : Json) :
  (∀ p, v ≠ JStr (AgentProvider.value p)) →
  as_str v ≫= AgentProvider.of_value = None.
Proof.
  intros Hv. destruct v as [| | | |s| |]; try reflexivity.
  change (AgentProvider.of_value s = None).
  destruct (AgentProvider.of_value s) as [p|] eqn:E; [|reflexivity].
  apply AgentProvider_of_value_Some in E as ->. by destruct (Hv p).
Qed.

Lemma unknown_voice_provider (v : Json) :
  (∀ p, v ≠ JStr (VoiceProvider.value p)) →
  as_str v ≫= VoiceProvider.of_value = None.
Proof.
  intros Hv. destruct v as [| | | |s| |]; try reflexivity.
  change (VoiceProvider.of_value s = None).
  destruct (VoiceProvider.of_value s) as [p|] eqn:E; [|reflexivity].
  apply VoiceProvider_of_value_Some in E as ->. by destruct (Hv p).
Qed.

Lemma unknown_voice_not_validated (voice : gmap string Json) (v : Json) :
  voice !! "provider" = Some v →
  (∀ p, v ≠ JStr (VoiceProvider.value p)) →
  optional validate_Voice (Some (JObj voice)) = None.
Proof.
  intros Hprovider Hv. cbn [optional]. unfold validate_Voice. cbn.
  rewrite Hprovider. cbn. by rewrite (unknown_voice_provider v Hv).
Qed.

Lemma outside_schema_not_validated (o : gmap string Json) :
  outside_schema o → validate_AgentConfig (JObj o) = None.
Proof.
  intros [Hname | Hprovider | v Hprovider Hv | voice v Hvoice Hprovider Hv];
    unfold validate_AgentConfig; cbn.
  - by rewrite Hname.
  - rewrite Hprovider. cbn. skip_fields.
  - rewrite Hprovider. cbn. rewrite (unknown_agent_provider v Hv).
    skip_fields.
  - rewrite Hvoice, (unknown_voice_not_validated voice v Hprovider Hv).
    skip_fields.
Qed.

(** C8, as the code has it: a body in which [name] or [provider] is
    missing, or [provider] or [voice.provider] is outside its enumeration,
    does not validate and nothing is posted for it; with both keys
    configured the caller gets the 422 of a validation failure, and with a
    key missing the configuration error raised before the body is looked
    at. *)
Theorem outside_schema_refused (py_repr : Json → string)
    (env : gmap string string) (client : AsyncClient)
    (o : gmap string Json) :
  outside_schema o →
  let handled := post_api_agents py_repr env client (JObj o) in
  validate_AgentConfig (JObj o) = None
  ∧ posted handled = []
  ∧ (∀ api_keys, validate_api_keys env = inr api_keys →
       outcome handled = raise RequestValidationError
       ∧ status_of (outcome handled) = 422)
  ∧ (∀ e, validate_api_keys env = inl e → outcome handled = raise e).
Proof.
  intros Ho. apply outside_schema_not_validated in Ho.
  cbn zeta. unfold post_api_agents. rewrite Ho.
  split; [reflexivity|].
  destruct (validate_api_keys env) as [e|api_keys]; cbn.
  - split; [reflexivity|]. split; [intros ? [=] | by intros ? [= <-]].
  - split; [reflexivity|]. split; [by intros ? _ | intros ? [=]].
Qed.

(** The repository's own test: [provider: "invalid"] is answered 422. *)
Lemma outside_schema_refused_witness :
  let handled :=
    post_api_agents none_repr test_env (answering created_abc)
      (test_body "invalid") in
  validate_AgentConfig (test_body "invalid") = None
  ∧ posted handled = []
  ∧ outcome handled = raise RequestValidationError
  ∧ status_of (outcome handled) = 422.
Proof.
  assert (outside_schema
            (list_to_map [
               ("name", JStr "Test Agent");
               ("provider", JStr "invalid");
               ("voice", JObj (list_to_map [("provider", JStr "eleven_labs");
                                            ("voice_id", JStr "X")]))
             ])) as Ho.
  { apply (provider_unknown _ (JStr "invalid")); [reflexivity|].
    intros []; discriminate. }
  destruct (outside_schema_refused none_repr test_env (answering created_abc)
              _ Ho)
    as (Hinvalid & Hposted & Hstatus & _).
  split; [exact Hinvalid|]. split; [exact Hposted|].
  apply (Hstatus test_keys). reflexivity.
Defined.

(** C8 as worded fails when a key is not configured: the body without
    [name] and [provider] is then answered with the 500 of the missing key,
    not with a validation failure. *)
Lemma outside_schema_without_keys :
  let handled :=
    post_api_agents none_repr ∅ (answering created_abc) (JObj ∅) in
  outside_schema ∅
  ∧ posted handled = []
  ∧ outcome handled
    = raise (HTTPException 500 "VAPI_API_KEY not configured in environment")
  ∧ status_of (outcome handled) = 500
  ∧ status_of (outcome handled) ≠ 422.
Proof.
  cbn zeta. split; [by apply name_missing|].
  split; [reflexivity|]. split; [reflexivity|]. split; [reflexivity|].
  discriminate.
Qed.

(** *** The scenarios of the specification, end to end *)

Lemma scenario_created :
  validate_AgentConfig (test_body "vapi")
  = Some (test_agent AgentProvider.VAPI)
  ∧ post_api_agents none_repr test_env (answering created_abc)
      (test_body "vapi")
    = {| posted :=
           [vapi_request (test_agent AgentProvider.VAPI) "test_vapi_key"];
         outcome :=
           inr (JObj (list_to_map [("id", JStr "abc");
                                   ("provider", JStr "vapi")])) |}.
Proof. split; reflexivity. Qed.

Lemma scenario_bad_voice_id :
  post_api_agents none_repr test_env (answering bad_voice_id)
    (test_body "vapi")
  = {| posted :=
         [vapi_request (test_agent AgentProvider.VAPI) "test_vapi_key"];
       outcome :=
         raise (HTTPException 400 "Vapi API error: bad voice id") |}.
Proof. reflexivity. Qed.


(** * Further properties of the code *)

Set Warnings "-clear-no-such-hyp".

(** ** The credentials *)

(** [validate_api_keys] returns keys exactly when both variables are set
    and not empty, and the keys it returns are the values of the two
    variables. *)
Theorem validate_api_keys_returns_env (env : gmap string string)
    (api_keys : ApiKeys.t) :
  validate_api_keys env = inr api_keys
  ↔ env !! "VAPI_API_KEY" = Some (ApiKeys.vapi_key api_keys)
    ∧ ApiKeys.vapi_key api_keys ≠ EmptyString
    ∧ env !! "RETELL_API_KEY" = Some (ApiKeys.retell_key api_keys)
    ∧ ApiKeys.retell_key api_keys ≠ EmptyString.
Proof.
  unfold validate_api_keys. destruct api_keys as [vk rk]. cbn.
  destruct (env !! "VAPI_API_KEY") as [v|]; cbn;
    [destruct (truthy v) eqn:Ev; cbn|].
  - destruct (env !! "RETELL_API_KEY") as [r|]; cbn;
      [destruct (truthy r) eqn:Er; cbn|].
    + apply truthy_string_iff in Ev, Er. split.
      * intros [= <- <-]. done.
      * intros ([= <-] & _ & [= <-] & _). done.
    + split; [discriminate|]. intros (_ & _ & [= <-] & Hr).
      apply truthy_string_iff in Hr. congruence.
    + split; [discriminate|]. intros (_ & _ & [=] & _).
  - split; [discriminate|]. intros ([= <-] & Hv & _).
    apply truthy_string_iff in Hv. congruence.
  - split; [discriminate|]. intros ([=] & _).
Qed.

Lemma validate_api_keys_returns_env_witness :
  validate_api_keys test_env = inr test_keys.
Proof.
  apply (validate_api_keys_returns_env test_env test_keys).
  repeat split; (reflexivity || discriminate).
Defined.

(** The Vapi key is looked at first: when it is unset or empty the error
    names it, whatever the Retell key is; the error names the Retell key
    only when the Vapi key is in order and the Retell key is unset or
    empty. *)
Theorem vapi_key_checked_first (env : gmap string string) :
  (env !! "VAPI_API_KEY" = None ∨ env !! "VAPI_API_KEY" = Some EmptyString →
   validate_api_keys env
   = raise (HTTPException 500 "VAPI_API_KEY not configured in environment"))
  ∧ (∀ vapi_key,
       env !! "VAPI_API_KEY" = Some vapi_key → vapi_key ≠ EmptyString →
       env !! "RETELL_API_KEY" = None
       ∨ env !! "RETELL_API_KEY" = Some EmptyString →
       validate_api_keys env
       = raise (HTTPException 500
                  "RETELL_API_KEY not configured in environment")).
Proof.
  unfold validate_api_keys. split.
  - by intros [-> | ->].
  - intros vapi_key -> Hne Hretell. apply truthy_string_iff in Hne.
    cbn. rewrite Hne. cbn. by destruct Hretell as [-> | ->].
Qed.

Lemma vapi_key_checked_first_witness :
  validate_api_keys {[ "RETELL_API_KEY" := "test_retell_key" ]}
  = raise (HTTPException 500 "VAPI_API_KEY not configured in environment")
  ∧ validate_api_keys
      (list_to_map [("VAPI_API_KEY", "test_vapi_key");
                    ("RETELL_API_KEY", EmptyString)])
    = raise (HTTPException 500 "RETELL_API_KEY not configured in environment").
Proof.
  split.
  - apply (vapi_key_checked_first {[ "RETELL_API_KEY" := "test_retell_key" ]}).
    left; reflexivity.
  - apply (proj2 (vapi_key_checked_first
                    (list_to_map [("VAPI_API_KEY", "test_vapi_key");
                                  ("RETELL_API_KEY", EmptyString)]))
             "test_vapi_key");
      [reflexivity | discriminate | right; reflexivity].
Defined.

(** ** The dispatcher, beyond the two answers of the claims *)

(** When the request does not get through (no response at all), the caller
    gets a 500 whose detail is "Vapi API request failed: " or
    "Retell API request failed: " followed by the transport's message, and
    the request was posted once: nothing is retried. *)
Theorem transport_failure_is_500 (py_repr : Json → string)
    (config : AgentConfig.t) (api_keys : ApiKeys.t) (client : AsyncClient)
    (request : Request.t) (message : string) :
  let handled := create_agent py_repr config api_keys client in
  posted handled = [request] →
  client request = Failed message →
  outcome handled
  = raise (HTTPException 500
             (match AgentConfig.provider config with
              | AgentProvider.VAPI => "Vapi API request failed: "
              | AgentProvider.RETELL => "Retell API request failed: "
              end +:+ message))
  ∧ status_of (outcome handled) = 500
  ∧ length (posted handled) = 1%nat.
Proof.
  cbn zeta. rewrite create_agent_by_provider.
  intros Hposted Hreply.
  destruct (AgentConfig.provider config); cbn in Hposted;
    injection Hposted as <-.
  - by rewrite create_vapi_agent_outcome, Hreply.
  - by rewrite create_retell_agent_outcome, Hreply.
Qed.

Lemma transport_failure_is_500_witness :
  outcome (create_agent none_repr (test_agent AgentProvider.RETELL) test_keys
             (λ _, Failed "All connection attempts failed"))
  = raise (HTTPException 500
             "Retell API request failed: All connection attempts failed").
Proof.
  apply (transport_failure_is_500 none_repr (test_agent AgentProvider.RETELL)
           test_keys (λ _, Failed "All connection attempts failed")
           (retell_request (test_agent AgentProvider.RETELL) "test_retell_key")
           "All connection attempts failed");
    reflexivity.
Defined.

(** A body is returned only for a 2xx answer that decodes to a JSON
    object: whenever [create_agent] returns, the one request it posted was
    answered that way, and what it returns is that object under the
    provider tag. *)
Theorem returns_only_tagged_objects (py_repr : Json → string)
    (config : AgentConfig.t) (api_keys : ApiKeys.t) (client : AsyncClient)
    (result : Json) :
  let handled := create_agent py_repr config api_keys client in
  outcome handled = inr result →
  ∃ request response (downstream : gmap string Json),
    posted handled = [request]
    ∧ client request = Received response
    ∧ Response.is_success response = true
    ∧ Response.json response = Some (JObj downstream)
    ∧ result
      = JObj (<["provider" :=
                  JStr (AgentProvider.value (AgentConfig.provider config))]>
                downstream).
Proof.
  cbn zeta. rewrite create_agent_by_provider.
  destruct (AgentConfig.provider config).
  - rewrite create_vapi_agent_outcome. intros Hout.
    exists (vapi_request config (ApiKeys.vapi_key api_keys)).
    destruct (client _) as [response|message]; [|discriminate].
    destruct (Response.is_success response) eqn:Hok; [|discriminate].
    destruct (Response.json response) as [[| | | | | |o]|] eqn:Hjson;
      try discriminate.
    injection Hout as <-. by exists response, o.
  - rewrite create_retell_agent_outcome. intros Hout.
    exists (retell_request config (ApiKeys.retell_key api_keys)).
    destruct (client _) as [response|message]; [|discriminate].
    destruct (Response.is_success response) eqn:Hok; [|discriminate].
    destruct (Response.json response) as [[| | | | | |o]|] eqn:Hjson;
      try discriminate.
    injection Hout as <-. by exists response, o.
Qed.

Lemma returns_only_tagged_objects_witness :
  ∃ request response (downstream : gmap string Json),
    posted (create_agent none_repr (test_agent AgentProvider.VAPI) test_keys
              (answering created_abc)) = [request]
    ∧ answering created_abc request = Received response
    ∧ Response.is_success response = true
    ∧ Response.json response = Some (JObj downstream)
    ∧ JObj (list_to_map [("id", JStr "abc"); ("provider", JStr "vapi")])
      = JObj (<["provider" := JStr "vapi"]> downstream).
Proof.
  apply (returns_only_tagged_objects none_repr
           (test_agent AgentProvider.VAPI) test_keys (answering created_abc)).
  reflexivity.
Defined.

(** A 2xx answer that cannot be returned is not caught either: when its
    body is not JSON the decoding error, and when it is JSON but not an
    object the error of the item assignment, leave the handler as they are,
    and the caller gets a plain 500 without a detail of the wrapper's. *)
Theorem unusable_success_is_uncaught (py_repr : Json → string)
    (config : AgentConfig.t) (api_keys : ApiKeys.t) (client : AsyncClient)
    (request : Request.t) (response : Response.t) :
  let handled := create_agent py_repr config api_keys client in
  posted handled = [request] →
  client request = Received response →
  Response.is_success response = true →
  (Response.json response = None → outcome handled = raise JSONDecodeError)
  ∧ (∀ j, Response.json response = Some j → (∀ o, j ≠ JObj o) →
       outcome handled = raise TypeError)
  ∧ ((∀ o, Response.json response ≠ Some (JObj o)) →
       status_of (outcome handled) = 500
       ∧ ∀ status_code detail,
           outcome handled ≠ raise (HTTPException status_code detail)).
Proof.
  cbn zeta. rewrite create_agent_by_provider.
  intros Hposted Hreply Hok.
  assert (outcome
            match AgentConfig.provider config with
            | AgentProvider.VAPI =>
                create_vapi_agent py_repr config (ApiKeys.vapi_key api_keys)
                  client
            | AgentProvider.RETELL =>
                create_retell_agent py_repr config
                  (ApiKeys.retell_key api_keys) client
            end
          = match Response.json response with
            | None => raise JSONDecodeError
            | Some (JObj o) =>
                inr (JObj (<["provider" :=
                    JStr (AgentProvider.value (AgentConfig.provider config))]>
                      o))
            | Some _ => raise TypeError
            end) as ->.
  { destruct (AgentConfig.provider config); cbn in Hposted;
      injection Hposted as <-.
    - by rewrite create_vapi_agent_outcome, Hreply, Hok.
    - by rewrite create_retell_agent_outcome, Hreply, Hok. }
  split; [by intros ->|]. split.
  - intros j -> Hj. destruct j; try reflexivity. by destruct (Hj fields).
  - intros Hj.
    destruct (Response.json response) as [[| | | | | |o]|];
      try (split; [reflexivity | discriminate]).
    by destruct (Hj o).
Qed.

Lemma unusable_success_is_uncaught_witness :
  outcome (create_agent none_repr (test_agent AgentProvider.VAPI) test_keys
             (answering (Response.mk 200 "OK" None)))
  = raise JSONDecodeError
  ∧ outcome (create_agent none_repr (test_agent AgentProvider.VAPI) test_keys
               (answering empty_listing))
    = raise TypeError.
Proof.
  split.
  - apply (unusable_success_is_uncaught none_repr
             (test_agent AgentProvider.VAPI) test_keys
             (answering (Response.mk 200 "OK" None))
             (vapi_request (test_agent AgentProvider.VAPI) "test_vapi_key")
             (Response.mk 200 "OK" None) eq_refl eq_refl eq_refl).
    reflexivity.
  - apply (proj1 (proj2 (unusable_success_is_uncaught none_repr
             (test_agent AgentProvider.VAPI) test_keys
             (answering empty_listing)
             (vapi_request (test_agent AgentProvider.VAPI) "test_vapi_key")
             empty_listing eq_refl eq_refl eq_refl)) (JArr []));
      [reflexivity | discriminate].
Defined.

(** ** The route, end to end *)

(** With both keys configured and a body that validates, the route posts
    exactly one request: to the URL of the provider the body names, with the
    bearer token made of that provider's environment variable and with no
    other header than the content type, carrying the payload of that
    provider's mapper; and it ends as [create_agent] ends. *)
Theorem valid_request_posts_once (py_repr : Json → string)
    (env : gmap string string) (client : AsyncClient) (body : Json)
    (api_keys : ApiKeys.t) (config : AgentConfig.t) :
  validate_api_keys env = inr api_keys →
  validate_AgentConfig body = Some config →
  let handled := post_api_agents py_repr env client body in
  let variable :=
    match AgentConfig.provider config with
    | AgentProvider.VAPI => "VAPI_API_KEY"
    | AgentProvider.RETELL => "RETELL_API_KEY"
    end in
  handled = create_agent py_repr config api_keys client
  ∧ ∃ request key,
      posted handled = [request]
      ∧ Request.url request
        = match AgentConfig.provider config with
          | AgentProvider.VAPI => "https://api.vapi.ai/assistants"
          | AgentProvider.RETELL => "https://api.retellai.com/agents"
          end
      ∧ env !! variable = Some key
      ∧ Request.headers request !! "Authorization" = Some ("Bearer " +:+ key)
      ∧ Request.headers request !! "Content-Type" = Some "application/json"
      ∧ dom (Request.headers request) = {[ "Authorization"; "Content-Type" ]}
      ∧ Request.json request
        = JObj match AgentConfig.provider config with
               | AgentProvider.VAPI => vapi_payload config
               | AgentProvider.RETELL => retell_payload config
               end.
Proof.
  intros Hkeys Hbody. cbn zeta.
  apply validate_api_keys_returns_env in Hkeys as Henv.
  destruct Henv as (Hvapi & _ & Hretell & _).
  unfold post_api_agents. rewrite Hkeys, Hbody.
  split; [reflexivity|].
  rewrite create_agent_by_provider.
  destruct (AgentConfig.provider config); cbn.
  - exists (vapi_request config (ApiKeys.vapi_key api_keys)),
      (ApiKeys.vapi_key api_keys).
    repeat split; try done.
    all: unfold bearer_headers; cbn.
    all: rewrite !dom_insert_L, dom_empty_L; set_solver.
  - exists (retell_request config (ApiKeys.retell_key api_keys)),
      (ApiKeys.retell_key api_keys).
    repeat split; try done.
    all: unfold bearer_headers; cbn.
    all: rewrite !dom_insert_L, dom_empty_L; set_solver.
Qed.

Lemma valid_request_posts_once_witness :
  ∃ request key,
    posted (post_api_agents none_repr test_env (answering created_abc)
              (test_body "retell")) = [request]
    ∧ Request.url request = "https://api.retellai.com/agents"
    ∧ test_env !! "RETELL_API_KEY" = Some key
    ∧ Request.headers request !! "Authorization" = Some ("Bearer " +:+ key)
    ∧ Request.headers request !! "Content-Type" = Some "application/json"
    ∧ dom (Request.headers request) = {[ "Authorization"; "Content-Type" ]}
    ∧ Request.json request
      = JObj (retell_payload (test_agent AgentProvider.RETELL)).
Proof.
  apply (valid_request_posts_once none_repr test_env (answering created_abc)
           (test_body "retell") test_keys (test_agent AgentProvider.RETELL));
    reflexivity.
Defined.

(** The route never posts more than one request, and it posts none unless
    both keys are configured and the body validates. *)
Theorem posts_only_validated_requests (py_repr : Json → string)
    (env : gmap string string) (client : AsyncClient) (body : Json) :
  let handled := post_api_agents py_repr env client body in
  (length (posted handled) ≤ 1)%nat
  ∧ (posted handled ≠ [] →
     ∃ api_keys config,
       validate_api_keys env = inr api_keys
       ∧ validate_AgentConfig body = Some config).
Proof.
  cbn zeta. unfold post_api_agents.
  destruct (validate_api_keys env) as [e|api_keys]; cbn;
    [split; [lia | done]|].
  destruct (validate_AgentConfig body) as [config|]; cbn;
    [|split; [lia | done]].
  rewrite create_agent_by_provider.
  split; [by destruct (AgentConfig.provider config)|].
  intros _. by exists api_keys, config.
Qed.

Lemma posts_only_validated_requests_witness :
  ∃ api_keys config,
    validate_api_keys test_env = inr api_keys
    ∧ validate_AgentConfig (test_body "vapi") = Some config.
Proof.
  apply (posts_only_validated_requests none_repr test_env
           (answering bad_voice_id) (test_body "vapi")).
  discriminate.
Defined.

(** What [create_agent] raises never carries a 2xx status. *)
Lemma create_agent_raised_status py_repr config api_keys client e :
  outcome (create_agent py_repr config api_keys client) = inl e →
  ¬ (200 ≤ status_of (inl e) ≤ 299).
Proof.
  rewrite create_agent_by_provider.
  destruct (AgentConfig.provider config);
    [rewrite create_vapi_agent_outcome | rewrite create_retell_agent_outcome];
    (destruct (client _) as [response|message];
     [|intros [= <-]; cbn; lia];
     destruct (Response.is_success response) eqn:Hok;
     [destruct (Response.json response) as [[]|]; intros [= <-]; cbn; lia|];
     intros [= <-]; cbn; unfold Response.is_success in Hok; lia).
Qed.

Lemma validate_api_keys_raised_status env e :
  validate_api_keys env = inl e → status_of (inl e) = 500.
Proof.
  unfold validate_api_keys.
  destruct (negb (truthy (env !! "VAPI_API_KEY"))); [by intros [= <-]|].
  destruct (negb (truthy (env !! "RETELL_API_KEY"))); [by intros [= <-]|].
  discriminate.
Qed.

(** The status tells a returned body from an error, with no overlap: the
    caller sees 201 exactly when the route returned, an error never carries
    a status from 200 to 299, and so the test of the example client, a
    status of 200 or 201, holds exactly when the route returned. *)
Theorem status_tells_success (py_repr : Json → string)
    (env : gmap string string) (client : AsyncClient) (body : Json) :
  let ended := outcome (post_api_agents py_repr env client body) in
  (status_of ended = 201 ↔ ∃ result, ended = inr result)
  ∧ (∀ e, ended = inl e → ¬ (200 ≤ status_of ended ≤ 299))
  ∧ (example_usage.succeeded (status_of ended) = true
     ↔ ∃ result, ended = inr result).
Proof.
  cbn zeta.
  assert (∀ e, outcome (post_api_agents py_repr env client body) = inl e →
               ¬ (200 ≤ status_of (inl e) ≤ 299)) as Hraised.
  { unfold post_api_agents. intros e.
    destruct (validate_api_keys env) as [e'|api_keys] eqn:Hkeys; cbn.
    - pose proof (validate_api_keys_raised_status _ _ Hkeys) as H500.
      intros [= <-]. change (¬ (200 ≤ status_of (inl e') ≤ 299)). lia.
    - destruct (validate_AgentConfig body) as [config|]; cbn.
      + apply create_agent_raised_status.
      + intros [= <-]. cbn. lia. }
  unfold example_usage.succeeded.
  destruct (outcome (post_api_agents py_repr env client body))
    as [e|result] eqn:Hended.
  - specialize (Hraised e eq_refl).
    split; [|split].
    + split; [lia | by intros [? [=]]].
    + by intros ? [= <-].
    + rewrite bool_decide_eq_true. split; [|by intros [? [=]]].
      intros Hin. apply list_elem_of_In in Hin. cbn [In] in Hin. lia.
  - split; [|split].
    + split; [by exists result | done].
    + intros ? [=].
    + rewrite bool_decide_eq_true. split; [by exists result|].
      intros _. cbn. set_solver.
Qed.

Lemma status_tells_success_witness :
  validate_AgentConfig example_usage.vapi_payload ≠ None
  ∧ example_usage.succeeded
      (status_of
         (outcome (post_api_agents none_repr test_env (answering created_abc)
                     example_usage.vapi_payload))) = true
  ∧ example_usage.succeeded
      (status_of
         (outcome (post_api_agents none_repr test_env (answering bad_voice_id)
                     example_usage.vapi_payload))) ≠ true.
Proof.
  split; [discriminate|]. split.
  - apply (status_tells_success none_repr test_env (answering created_abc)
             example_usage.vapi_payload).
    eexists. reflexivity.
  - intros Hok.
    apply (status_tells_success none_repr test_env (answering bad_voice_id)
             example_usage.vapi_payload) in Hok as [result Hresult].
    discriminate Hresult.
Defined.

(** ** The mappers, beyond the fields of the claims *)

Lemma add_description_dom config (payload : gmap string Json) :
  dom (add_description config payload)
  = (if truthy (AgentConfig.description config)
     then {[ "description" ]} else ∅) ∪ dom payload.
Proof.
  unfold add_description.
  destruct (AgentConfig.description config) as [d|]; cbn;
    [destruct (truthy d); [rewrite dom_insert_L|]|]; set_solver.
Qed.

Lemma add_webhook_dom config (payload : gmap string Json) :
  dom (add_webhook config payload)
  = (if truthy (AgentConfig.webhook_url config)
     then {[ "webhook_url" ]} else ∅) ∪ dom payload.
Proof.
  unfold add_webhook.
  destruct (AgentConfig.webhook_url config) as [w|]; cbn;
    [destruct (truthy w); [rewrite dom_insert_L|]|]; set_solver.
Qed.

(** The keys of the mapped payloads are fixed by which optional fields are
    set: the four core keys ([model] for Vapi, [llm] for Retell), the voice
    keys ([voice_id] and [voice] for Vapi, [voice] alone for Retell) exactly
    with a voice block, and [webhook_url] and [description] exactly when
    given and not empty.  The mappers emit no other key. *)
Theorem mapped_payload_keys (config : AgentConfig.t) :
  dom (vapi_mapped config)
  = {[ "name"; "model"; "system_prompt"; "metadata" ]}
    ∪ match AgentConfig.voice config with
      | Some _ => {[ "voice_id"; "voice" ]}
      | None => ∅
      end
    ∪ (if truthy (AgentConfig.webhook_url config)
       then {[ "webhook_url" ]} else ∅)
    ∪ (if truthy (AgentConfig.description config)
       then {[ "description" ]} else ∅)
  ∧ dom (retell_mapped config)
    = {[ "name"; "llm"; "system_prompt"; "metadata" ]}
      ∪ match AgentConfig.voice config with
        | Some _ => {[ "voice" ]}
        | None => ∅
        end
      ∪ (if truthy (AgentConfig.webhook_url config)
         then {[ "webhook_url" ]} else ∅)
      ∪ (if truthy (AgentConfig.description config)
         then {[ "description" ]} else ∅).
Proof.
  unfold vapi_mapped, retell_mapped.
  rewrite !add_description_dom, !add_webhook_dom.
  unfold add_vapi_voice, add_retell_voice, vapi_base, retell_base.
  split.
  - destruct (AgentConfig.voice config); cbn;
      rewrite !dom_insert_L, dom_empty_L; set_solver.
  - destruct (AgentConfig.voice config); cbn;
      rewrite !dom_insert_L, dom_empty_L; set_solver.
Qed.

(** The merge of [provider_specific] neither loses nor invents anything:
    the posted payload has exactly the keys of the mapped payload and of
    [provider_specific], and each value comes from [provider_specific] or,
    for a key it does not name, from the mapper. *)
Theorem merge_keeps_mapped_keys (config : AgentConfig.t) :
  let ps := default ∅ (AgentConfig.provider_specific config) in
  dom (vapi_payload config) = dom ps ∪ dom (vapi_mapped config)
  ∧ dom (retell_payload config) = dom ps ∪ dom (retell_mapped config)
  ∧ (∀ key value,
       vapi_payload config !! key = Some value
       ↔ ps !! key = Some value
         ∨ ps !! key = None ∧ vapi_mapped config !! key = Some value)
  ∧ (∀ key value,
       retell_payload config !! key = Some value
       ↔ ps !! key = Some value
         ∨ ps !! key = None ∧ retell_mapped config !! key = Some value).
Proof.
  cbn zeta. unfold vapi_payload, retell_payload.
  rewrite !add_provider_specific_union.
  split; [apply dom_union_L|]. split; [apply dom_union_L|].
  split; intros key value; apply lookup_union_Some_raw.
Qed.

(** An optional [description] or [webhook_url] that is given and not empty
    is in the mapped payload of either provider as given; one that is not
    given leaves no key. *)
Theorem nonempty_optionals_emitted (config : AgentConfig.t) :
  (∀ d, AgentConfig.description config = Some d → d ≠ EmptyString →
     vapi_mapped config !! "description" = Some (JStr d)
     ∧ retell_mapped config !! "description" = Some (JStr d))
  ∧ (∀ w, AgentConfig.webhook_url config = Some w → w ≠ EmptyString →
       vapi_mapped config !! "webhook_url" = Some (JStr w)
       ∧ retell_mapped config !! "webhook_url" = Some (JStr w))
  ∧ (AgentConfig.description config = None →
       vapi_mapped config !! "description" = None
       ∧ retell_mapped config !! "description" = None)
  ∧ (AgentConfig.webhook_url config = None →
       vapi_mapped config !! "webhook_url" = None
       ∧ retell_mapped config !! "webhook_url" = None).
Proof.
  split; [|split; [|split]].
  - intros d Hd Hne. apply truthy_string_iff in Hne.
    unfold vapi_mapped, retell_mapped, add_description.
    rewrite Hd, Hne. split; apply lookup_insert_eq.
  - intros w Hw Hne. apply truthy_string_iff in Hne.
    unfold vapi_mapped, retell_mapped.
    rewrite !add_description_other by done.
    unfold add_webhook. rewrite Hw, Hne. split; apply lookup_insert_eq.
  - intros Hd.
    assert (∀ m : gmap string Json, m !! "description" = None
            ↔ "description" ∉ dom m) as Hdom
      by (intros; by rewrite not_elem_of_dom).
    destruct (mapped_payload_keys config) as [Hv Hr].
    rewrite !Hdom, Hv, Hr, Hd. cbn.
    destruct (AgentConfig.voice config),
      (truthy (AgentConfig.webhook_url config)); set_solver.
  - intros Hw.
    assert (∀ m : gmap string Json, m !! "webhook_url" = None
            ↔ "webhook_url" ∉ dom m) as Hdom
      by (intros; by rewrite not_elem_of_dom).
    destruct (mapped_payload_keys config) as [Hv Hr].
    rewrite !Hdom, Hv, Hr, Hw. cbn.
    destruct (AgentConfig.voice config),
      (truthy (AgentConfig.description config)); set_solver.
Qed.

Lemma nonempty_optionals_emitted_witness :
  vapi_mapped (full_agent AgentProvider.VAPI) !! "description"
  = Some (JStr "A test agent")
  ∧ retell_mapped (full_agent AgentProvider.VAPI) !! "webhook_url"
    = Some (JStr "https://example.com/webhook")
  ∧ vapi_mapped (test_agent AgentProvider.VAPI) !! "description" = None
  ∧ retell_mapped (test_agent AgentProvider.VAPI) !! "webhook_url" = None.
Proof.
  destruct (nonempty_optionals_emitted (full_agent AgentProvider.VAPI))
    as (Hd & Hw & _).
  destruct (nonempty_optionals_emitted (test_agent AgentProvider.VAPI))
    as (_ & _ & Hd0 & Hw0).
  split; [apply (Hd "A test agent"); [reflexivity | discriminate]|].
  split; [apply (Hw "https://example.com/webhook");
          [reflexivity | discriminate]|].
  split; [apply Hd0; reflexivity | apply Hw0; reflexivity].
Defined.

(** The model a mapper writes is never the empty string: an empty
    [llm_model] gives way to the default, which is not empty. *)
Theorem mapped_model_never_empty (config : AgentConfig.t) :
  (∃ m, vapi_mapped config !! "model" = Some (JStr m) ∧ m ≠ EmptyString)
  ∧ (∃ (llm : gmap string Json) m,
       retell_mapped config !! "llm" = Some (JObj llm)
       ∧ llm !! "model" = Some (JStr m)
       ∧ m ≠ EmptyString).
Proof.
  assert (∀ d : string, d ≠ EmptyString →
            py_or (AgentConfig.llm_model config) d ≠ EmptyString) as Hor.
  { intros d Hd. unfold py_or.
    destruct (AgentConfig.llm_model config) as [m|]; [|done].
    destruct (truthy m) eqn:E; [by apply truthy_string_iff | done]. }
  split.
  - exists (py_or (AgentConfig.llm_model config) "gpt-3.5-turbo-0125").
    split; [|by apply Hor].
    unfold vapi_mapped. rewrite optional_merges_other by done.
    unfold add_vapi_voice. destruct (AgentConfig.voice config); done.
  - eexists _, (py_or (AgentConfig.llm_model config) "gpt-3.5-turbo").
    split; [|split; [|by apply Hor]].
    + unfold retell_mapped. rewrite optional_merges_other by done.
      unfold add_retell_voice.
      destruct (AgentConfig.voice config); reflexivity.
    + reflexivity.
Qed.

(** ** The enumerations and the remapping tables *)

(** Looking a member up by value gives a member exactly for that member's
    own value: [of_value] undoes [value], for both enumerations, and
    refuses every other string. *)
Theorem enum_lookup_by_value :
  (∀ s p, AgentProvider.of_value s = Some p ↔ s = AgentProvider.value p)
  ∧ (∀ s p, VoiceProvider.of_value s = Some p ↔ s = VoiceProvider.value p)
  ∧ (∀ s, AgentProvider.of_value s = None
          ↔ ∀ p, s ≠ AgentProvider.value p)
  ∧ (∀ s, VoiceProvider.of_value s = None
          ↔ ∀ p, s ≠ VoiceProvider.value p).
Proof.
  assert (∀ s p, AgentProvider.of_value s = Some p
                 ↔ s = AgentProvider.value p) as Ha.
  { intros s p. split; [apply AgentProvider_of_value_Some|].
    intros ->. apply AgentProvider_of_value_value. }
  assert (∀ s p, VoiceProvider.of_value s = Some p
                 ↔ s = VoiceProvider.value p) as Hv.
  { intros s p. split; [apply VoiceProvider_of_value_Some|].
    intros ->. apply VoiceProvider_of_value_value. }
  split; [exact Ha|]. split; [exact Hv|]. split; intros s.
  - split.
    + intros Hnone p Hs. apply Ha in Hs. congruence.
    + intros Hs. destruct (AgentProvider.of_value s) as [p|] eqn:E; [|done].
      apply Ha in E. by destruct (Hs p).
  - split.
    + intros Hnone p Hs. apply Hv in Hs. congruence.
    + intros Hs. destruct (VoiceProvider.of_value s) as [p|] eqn:E; [|done].
      apply Hv in E. by destruct (Hs p).
Qed.

(** Neither table merges two voice providers: different members are sent
    to different names, by the Vapi table (which leaves every member's
    value as it is) and by the Retell table. *)
Theorem remapping_keeps_members_apart (p q : VoiceProvider.t) :
  p ≠ q →
  map_voice_provider_to_vapi (VoiceProvider.value p)
  ≠ map_voice_provider_to_vapi (VoiceProvider.value q)
  ∧ map_voice_provider_to_retell (VoiceProvider.value p)
    ≠ map_voice_provider_to_retell (VoiceProvider.value q)
  ∧ map_voice_provider_to_vapi (VoiceProvider.value p) = VoiceProvider.value p.
Proof.
  intros Hne. destruct p, q; try done; repeat split; discriminate.
Qed.

Lemma remapping_keeps_members_apart_witness :
  map_voice_provider_to_retell "eleven_labs"
  ≠ map_voice_provider_to_retell "open_ai".
Proof.
  apply (remapping_keeps_members_apart VoiceProvider.ELEVEN_LABS
           VoiceProvider.OPEN_AI).
  discriminate.
Defined.

(** ** Validation of the body, beyond the refusals of the claims *)

Lemma optional_as_str_written (f : option string) :
  optional as_str (Some (optional_json JStr f)) = Some f.
Proof. by destruct f. Qed.

Lemma optional_as_dict_written (f : option (gmap string Json)) :
  optional as_dict (Some (optional_json JObj f)) = Some f.
Proof. by destruct f. Qed.

Lemma validate_Voice_written (v : Voice.t) :
  validate_Voice (Voice_body v) = Some v.
Proof.
  destruct v as [p id s]. unfold validate_Voice, Voice_body. cbn.
  simpl_map. by destruct p, s.
Qed.

Lemma optional_voice_written (f : option Voice.t) :
  optional validate_Voice (Some (optional_json Voice_body f)) = Some f.
Proof.
  destruct f as [v|]; [|done]. cbn [optional_json from_option].
  change (optional validate_Voice (Some (Voice_body v)))
    with (Some <$> validate_Voice (Voice_body v)).
  by rewrite validate_Voice_written.
Qed.

(** Validation loses nothing and changes nothing: the body written for a
    configuration validates, and to that very configuration.  So every
    configuration is the validation of some body. *)
Theorem validate_written_body (config : AgentConfig.t) :
  validate_AgentConfig (AgentConfig_body config) = Some config.
Proof.
  destruct config as [n d m sp vo w md p ps].
  unfold validate_AgentConfig, AgentConfig_body. cbn.
  simpl_map.
  change (from_option JStr JNull d) with (optional_json JStr d).
  change (from_option JStr JNull m) with (optional_json JStr m).
  change (from_option JStr JNull sp) with (optional_json JStr sp).
  change (from_option JStr JNull w) with (optional_json JStr w).
  change (from_option JObj JNull md) with (optional_json JObj md).
  change (from_option JObj JNull ps) with (optional_json JObj ps).
  change (from_option Voice_body JNull vo) with (optional_json Voice_body vo).
  rewrite !optional_as_str_written, !optional_as_dict_written,
    optional_voice_written.
  by destruct p.
Qed.

Lemma not_declared_ne (key : string) :
  key ∉ AgentConfig_fields →
  key ≠ "name" ∧ key ≠ "description" ∧ key ≠ "llm_model"
  ∧ key ≠ "system_prompt" ∧ key ≠ "voice" ∧ key ≠ "webhook_url"
  ∧ key ≠ "metadata" ∧ key ≠ "provider" ∧ key ≠ "provider_specific".
Proof. unfold AgentConfig_fields. set_solver. Qed.

(** A key the model does not declare is ignored: adding it to a body, with
    whatever value, changes neither whether the body validates nor the
    configuration it validates to. *)
Theorem undeclared_key_ignored (o : gmap string Json) (key : string)
    (value : Json) :
  key ∉ AgentConfig_fields →
  validate_AgentConfig (JObj (<[key := value]> o))
  = validate_AgentConfig (JObj o).
Proof.
  intros Hkey.
  apply not_declared_ne in Hkey as (? & ? & ? & ? & ? & ? & ? & ? & ?).
  unfold validate_AgentConfig. cbn.
  by rewrite !lookup_insert_ne by done.
Qed.

Lemma undeclared_key_ignored_witness :
  validate_AgentConfig
    (JObj (<["end_call_after_silence" := JInt 5]>
             (list_to_map [("name", JStr "Sales Representative");
                           ("provider", JStr "retell")])))
  = Some (AgentConfig.mk "Sales Representative" None None None None None None
            AgentProvider.RETELL None).
Proof.
  rewrite (undeclared_key_ignored
             (list_to_map [("name", JStr "Sales Representative");
                           ("provider", JStr "retell")])
             "end_call_after_silence" (JInt 5)); [reflexivity|].
  unfold AgentConfig_fields. rewrite !not_elem_of_cons.
  repeat split; try discriminate. apply not_elem_of_nil.
Defined.

(** For an optional field, [null] is the same as leaving the field out:
    a body with the field set to [null] validates exactly as the body
    without the field does. *)
Theorem null_is_absent (o : gmap string Json) (key : string) :
  key ∈ AgentConfig_optional_fields →
  validate_AgentConfig (JObj (<[key := JNull]> o))
  = validate_AgentConfig (JObj (delete key o)).
Proof.
  unfold AgentConfig_optional_fields. rewrite !elem_of_cons, elem_of_nil.
  intros [-> | [-> | [-> | [-> | [-> | [-> | [-> | []]]]]]]];
    unfold validate_AgentConfig; cbn;
    rewrite lookup_insert_eq, lookup_delete_eq;
    by rewrite !lookup_insert_ne, !lookup_delete_ne by done.
Qed.

Lemma null_is_absent_witness :
  validate_AgentConfig
    (JObj (<["voice" := JNull]>
             (list_to_map [("name", JStr "Test Agent");
                           ("provider", JStr "vapi")])))
  = Some (AgentConfig.mk "Test Agent" None None None None None None
            AgentProvider.VAPI None).
Proof.
  rewrite (null_is_absent
             (list_to_map [("name", JStr "Test Agent");
                           ("provider", JStr "vapi")]) "voice");
    [reflexivity|].
  unfold AgentConfig_optional_fields. rewrite !elem_of_cons.
  do 3 right. left. reflexivity.
Defined.

(** Bodies the validator refuses besides those of C8: a body that is not a
    JSON object; a [name] or a [provider] that is [null]; a [voice] that is
    neither [null] nor an object; a voice block without [voice_id].  With
    both keys configured each is answered 422, and nothing is posted. *)
Theorem malformed_body_refused (py_repr : Json → string)
    (env : gmap string string) (client : AsyncClient) (body : Json) :
  (∀ o, body ≠ JObj o)
  ∨ (∃ o, body = JObj o
          ∧ (o !! "name" = Some JNull
             ∨ o !! "provider" = Some JNull
             ∨ (∃ j, o !! "voice" = Some j ∧ j ≠ JNull ∧ ∀ vo, j ≠ JObj vo)
             ∨ (∃ vo, o !! "voice" = Some (JObj vo)
                      ∧ vo !! "voice_id" = None))) →
  validate_AgentConfig body = None
  ∧ posted (post_api_agents py_repr env client body) = []
  ∧ (∀ api_keys, validate_api_keys env = inr api_keys →
       status_of (outcome (post_api_agents py_repr env client body)) = 422).
Proof.
  intros Hbody.
  assert (validate_AgentConfig body = None) as Hnone.
  { destruct Hbody as [Hobj | (o & -> & Ho)].
    - destruct body; try reflexivity. by destruct (Hobj fields).
    - unfold validate_AgentConfig. cbn.
      destruct Ho as [Hname | [Hprovider | [(j & Hj & Hnull & Hobj)
                                           | (vo & Hvoice & Hid)]]].
      + by rewrite Hname.
      + rewrite Hprovider. cbn. skip_fields.
      + rewrite Hj.
        assert (optional validate_Voice (Some j) = None) as ->.
        { destruct j; try reflexivity; [done | by destruct (Hobj fields)]. }
        skip_fields.
      + rewrite Hvoice.
        assert (optional validate_Voice (Some (JObj vo)) = None) as ->.
        { cbn [optional]. unfold validate_Voice. cbn. rewrite Hid. cbn.
          by destruct (required _ (vo !! "provider")). }
        skip_fields. }
  split; [exact Hnone|].
  unfold post_api_agents. rewrite Hnone.
  destruct (validate_api_keys env) as [e|api_keys]; cbn.
  - split; [reflexivity|]. intros ? [=].
  - split; [reflexivity|]. by intros ? _.
Qed.

Lemma malformed_body_refused_witness :
  validate_AgentConfig (JArr [test_body "vapi"]) = None
  ∧ status_of
      (outcome (post_api_agents none_repr test_env (answering created_abc)
                  (JArr [test_body "vapi"]))) = 422
  ∧ validate_AgentConfig
      (JObj (list_to_map [
         ("name", JStr "Test Agent");
         ("provider", JStr "vapi");
         ("voice", JObj {[ "provider" := JStr "eleven_labs" ]})
       ])) = None.
Proof.
  destruct (malformed_body_refused none_repr test_env (answering created_abc)
              (JArr [test_body "vapi"]))
    as (Hnone & _ & Hstatus); [left; discriminate|].
  split; [exact Hnone|]. split; [by apply (Hstatus test_keys)|].
  apply (malformed_body_refused none_repr test_env (answering created_abc)).
  right. eexists. split; [reflexivity|].
  do 3 right. eexists. split; reflexivity.
Defined.

(** ** The keys stay with their providers *)

(** A request for one provider does not depend on the other provider's key
    in any way: with that key replaced by any other string, the same request
    is posted and the request ends the same.  In particular the Retell key
    is never sent to Vapi, nor the Vapi key to Retell. *)
Theorem other_key_never_used (py_repr : Json → string)
    (config : AgentConfig.t) (client : AsyncClient)
    (vapi_key retell_key other : string) :
  (AgentConfig.provider config = AgentProvider.VAPI →
   create_agent py_repr config (ApiKeys.mk vapi_key retell_key) client
   = create_agent py_repr config (ApiKeys.mk vapi_key other) client)
  ∧ (AgentConfig.provider config = AgentProvider.RETELL →
     create_agent py_repr config (ApiKeys.mk vapi_key retell_key) client
     = create_agent py_repr config (ApiKeys.mk other retell_key) client).
Proof.
  rewrite !create_agent_by_provider. split; by intros ->.
Qed.

Lemma other_key_never_used_witness :
  create_agent none_repr (test_agent AgentProvider.VAPI) test_keys
    (answering created_abc)
  = create_agent none_repr (test_agent AgentProvider.VAPI)
      (ApiKeys.mk "test_vapi_key" "another key") (answering created_abc).
Proof.
  apply (other_key_never_used none_repr (test_agent AgentProvider.VAPI)
           (answering created_abc) "test_vapi_key" "test_retell_key"
           "another key").
  reflexivity.
Defined.
